(** * The data-ingestion notebook of the predictive-maintenance example

  A shallow embedding of
  [examples/predictive_maintenance/1_data_ingestion.ipynb]: the five CSV
  loads with schema inference, the missing-value handling of the telemetry
  frame, the five Parquet writes and the file operations on the target
  directory.

  The notebook drives two libraries.  Their behaviour is modelled in the
  modules [Spark] (the CSV reader with [inferSchema], after
  [CSVInferSchema], and [DataFrame.fillna], after [DataFrameNaFunctions],
  of the Spark 2 line the notebook was written for) and [Dbfs] (the file
  operations); the notebook itself is in [Notebook].  The exploratory
  cells ([display], [take], [toPandas], the plots) only read the frames;
  of them the run keeps whether they raise, which is a parameter of the
  environment, and [Exploration] has the counts behind the bar plots. *)

From Stdlib Require Import ZArith QArith String Ascii List Bool Lia.
From stdpp Require Import base option list strings gmap.
Import ListNotations.

Local Open Scope string_scope.
Local Open Scope list_scope.
Local Open Scope Z_scope.

(** ** Spark: frames, the CSV reader, [fillna] *)

Module Spark.

(** The column types the CSV reader can infer. *)
Inductive DataType :=
| NullType | IntegerType | LongType | DecimalType | DoubleType
| TimestampType | BooleanType | StringType.

Definition DataType_eqb (a b : DataType) : bool :=
  match a, b with
  | NullType, NullType | IntegerType, IntegerType | LongType, LongType
  | DecimalType, DecimalType | DoubleType, DoubleType
  | TimestampType, TimestampType | BooleanType, BooleanType
  | StringType, StringType => true
  | _, _ => false
  end.

(** [dt.isInstanceOf[NumericType]] *)
Definition isNumeric (dt : DataType) : bool :=
  match dt with
  | IntegerType | LongType | DecimalType | DoubleType => true
  | _ => false
  end.

(** A double is NaN or a number; no arithmetic is done on it here, so the
    number is kept as the rational it denotes. *)
Inductive double := NaN | Num (q : Q).

(** One cell of a frame. *)
Inductive value :=
| Null
| IntV (z : Z) | LongV (z : Z) | DecV (z : Z)
| DoubleV (d : double)
| TsV (t : Z)
| BoolV (b : bool)
| StrV (s : string).

Record StructField := { name : string; dataType : DataType }.

(** A frame: its schema and its rows, one cell per schema field. *)
Record DataFrame := { schema : list StructField; rows : list (list value) }.

Definition columns (df : DataFrame) : list string := map name (schema df).
Definition count (df : DataFrame) : nat := length (rows df).

(** *** CSV input

    A field of a CSV record is its text together with the way Spark's own
    parsers read that text: empty (the null value), an integer literal, any
    other text [toDouble] accepts, a timestamp, a boolean, or none of
    these. *)
Inductive lexeme :=
| LEmpty
| LInteger (z : Z)
| LReal (d : double)
| LTime (t : Z)
| LBool (b : bool)
| LText.

Record field := { text : string; lex : lexeme }.

(** A CSV file read with [header = true]: the names the reader gives the
    columns from the first line (it numbers the names that are repeated or
    empty), and the records that follow. *)
Record CsvFile := { header : list string; records : list (list field) }.

Definition in_int (z : Z) : bool := (- 2 ^ 31 <=? z) && (z <? 2 ^ 31).
Definition in_long (z : Z) : bool := (- 2 ^ 63 <=? z) && (z <? 2 ^ 63).

(** The chain of [tryParse...] of [CSVInferSchema]: each step that fails
    hands the field to the next one. *)
Definition tryParseBoolean (f : field) : DataType :=
  match lex f with LBool _ => BooleanType | _ => StringType end.

Definition tryParseTimestamp (f : field) : DataType :=
  match lex f with LTime _ => TimestampType | _ => tryParseBoolean f end.

Definition tryParseDouble (f : field) : DataType :=
  match lex f with
  | LInteger _ | LReal _ => DoubleType
  | _ => tryParseTimestamp f
  end.

(** A decimal is only tried for integer literals, of at most 38 digits. *)
Definition tryParseDecimal (f : field) : DataType :=
  match lex f with
  | LInteger z => if Z.abs z <? 10 ^ 38 then DecimalType else tryParseDouble f
  | _ => tryParseDouble f
  end.

Definition tryParseLong (f : field) : DataType :=
  match lex f with
  | LInteger z => if in_long z then LongType else tryParseDecimal f
  | _ => tryParseDecimal f
  end.

Definition tryParseInteger (f : field) : DataType :=
  match lex f with
  | LInteger z => if in_int z then IntegerType else tryParseLong f
  | _ => tryParseLong f
  end.

(** [compatibleType]: the tightest type that holds both, when there is
    one.  (The precision of decimals is not kept.) *)
Definition compatibleType (t1 t2 : DataType) : option DataType :=
  if DataType_eqb t1 t2 then Some t1 else
  match t1, t2 with
  | NullType, t | t, NullType => Some t
  | StringType, _ | _, StringType => Some StringType
  | IntegerType, LongType | LongType, IntegerType => Some LongType
  | IntegerType, DecimalType | DecimalType, IntegerType
  | LongType, DecimalType | DecimalType, LongType => Some DecimalType
  | IntegerType, DoubleType | DoubleType, IntegerType
  | LongType, DoubleType | DoubleType, LongType
  | DecimalType, DoubleType | DoubleType, DecimalType => Some DoubleType
  | _, _ => None
  end.

(** The type of a column after one more field: what the field parses as,
    starting from the type so far, merged with the type so far; a string
    column when the two do not go together. *)
Definition inferField (typeSoFar : DataType) (f : field) : DataType :=
  match lex f with
  | LEmpty => typeSoFar
  | _ =>
    let typeElemInfer :=
      match typeSoFar with
      | NullType => tryParseInteger f
      | IntegerType => tryParseInteger f
      | LongType => tryParseLong f
      | DecimalType => tryParseDecimal f
      | DoubleType => tryParseDouble f
      | TimestampType => tryParseTimestamp f
      | BooleanType => tryParseBoolean f
      | StringType => StringType
      end in
    default StringType (compatibleType typeSoFar typeElemInfer)
  end.

(** Columns missing on the right of a short record keep their type. *)
Fixpoint inferRowType (rowSoFar : list DataType) (next : list field)
  : list DataType :=
  match rowSoFar, next with
  | t :: ts, f :: fs => inferField t f :: inferRowType ts fs
  | _, _ => rowSoFar
  end.

(** A column in which nothing was seen is a string column. *)
Definition canonical (t : DataType) : DataType :=
  match t with NullType => StringType | _ => t end.

Definition infer (c : CsvFile) : list StructField :=
  let startType := replicate (length (header c)) NullType in
  let rootTypes := fold_left inferRowType (records c) startType in
  zip_with (fun n t => {| name := n; dataType := canonical t |})
           (header c) rootTypes.

(** Reading a field into a column of a given type; a field the type cannot
    hold is read as null. *)
Definition castTo (dt : DataType) (f : field) : value :=
  match lex f with
  | LEmpty => Null
  | l =>
    match dt, l with
    | StringType, _ => StrV (text f)
    | IntegerType, LInteger z => if in_int z then IntV z else Null
    | LongType, LInteger z => if in_long z then LongV z else Null
    | DecimalType, LInteger z => DecV z
    | DoubleType, LInteger z => DoubleV (Num (inject_Z z))
    | DoubleType, LReal d => DoubleV d
    | TimestampType, LTime t => TsV t
    | BooleanType, LBool b => BoolV b
    | _, _ => Null
    end
  end.

(** A record shorter than the schema is padded with nulls, a longer one is
    cut. *)
Fixpoint convert (fs : list StructField) (r : list field) : list value :=
  match fs with
  | [] => []
  | f :: fs' =>
    match r with
    | [] => Null :: convert fs' []
    | x :: r' => castTo (dataType f) x :: convert fs' r'
    end
  end.

(** [spark.read.format("csv").option("header","true")
      .option("inferSchema","true").load(...)] on the content of a file. *)
Definition load (c : CsvFile) : DataFrame :=
  let s := infer c in
  {| schema := s; rows := map (convert s) (records c) |}.

(** *** [DataFrame.fillna(value, subset)] *)

(** The fill values the notebook passes. *)
Inductive PyValue := PyInt (z : Z) | PyStr (s : string).

Definition ascii_lower (c : ascii) : ascii :=
  let n := N_of_ascii c in
  if ((65 <=? n) && (n <=? 90))%N then ascii_of_N (n + 32) else c.

Fixpoint toLowerCase (s : string) : string :=
  match s with
  | EmptyString => EmptyString
  | String c s' => String (ascii_lower c) (toLowerCase s')
  end.

(** The analyzer's resolver: column names are compared without case. *)
Definition columnEquals (a b : string) : bool :=
  String.eqb (toLowerCase a) (toLowerCase b).

(** A Python int is passed on as a double and fills numeric columns; a
    string fills string columns. *)
Definition typeMatches (v : PyValue) (dt : DataType) : bool :=
  match v with
  | PyInt _ => isNumeric dt
  | PyStr _ => match dt with StringType => true | _ => false end
  end.

Definition clamp (lo hi z : Z) : Z := Z.max lo (Z.min hi z).

(** [lit(replacement).cast(col.dataType)] *)
Definition replacement (v : PyValue) (dt : DataType) : value :=
  match v, dt with
  | PyInt z, IntegerType => IntV (clamp (- 2 ^ 31) (2 ^ 31 - 1) z)
  | PyInt z, LongType => LongV (clamp (- 2 ^ 63) (2 ^ 63 - 1) z)
  | PyInt z, DecimalType => DecV z
  | PyInt z, DoubleType => DoubleV (Num (inject_Z z))
  | PyStr s, StringType => StrV s
  | _, _ => Null
  end.

(** [nanvl(col, null)] on a double column, the column itself otherwise. *)
Definition colValue (dt : DataType) (x : value) : value :=
  match dt, x with
  | DoubleType, DoubleV NaN => Null
  | _, _ => x
  end.

(** [coalesce(colValue, replacement)] *)
Definition fillCol (f : StructField) (v : PyValue) (x : value) : value :=
  match colValue (dataType f) x with
  | Null => replacement v (dataType f)
  | y => y
  end.

(** A column is filled when its type matches the value and its name is in
    [subset]; otherwise it is selected as it is. *)
Definition projection (v : PyValue) (subset : list string)
    (f : StructField) (x : value) : value :=
  if typeMatches v (dataType f) && existsb (columnEquals (name f)) subset
  then fillCol f v x
  else x.

(** The frame [fillna] gives when it returns: the schema as it was, each
    row through the projections. *)
Definition fillna (v : PyValue) (subset : list string) (df : DataFrame)
  : DataFrame :=
  {| schema := schema df;
     rows := map (zip_with (projection v subset) (schema df)) (rows df) |}.

(** A cell is missing when it is null or NaN: these are the cells the
    numeric fill replaces. *)
Definition missing (x : value) : bool :=
  match x with
  | Null | DoubleV NaN => true
  | _ => false
  end.

(** The cells a column of a given type can hold. *)
Definition has_type (dt : DataType) (x : value) : bool :=
  match x, dt with
  | Null, _ => true
  | IntV _, IntegerType | LongV _, LongType | DecV _, DecimalType
  | DoubleV _, DoubleType | TsV _, TimestampType | BoolV _, BooleanType
  | StrV _, StringType => true
  | _, _ => false
  end.

(** [x == 0] on a cell. *)
Definition is_zero (x : value) : bool :=
  match x with
  | IntV z | LongV z | DecV z => z =? 0
  | DoubleV (Num q) => Qeq_bool q 0
  | _ => false
  end.

End Spark.

(** ** The file systems and the effects of a run *)

Module Dbfs.
Import Spark.

(** What a path of the target file system holds: a copied CSV file or a
    Parquet artifact (the frame that was written). *)
Inductive File :=
| CsvData (c : CsvFile)
| ParquetData (df : DataFrame).

(** The error taxonomy.  A load from a path that does not exist is a
    [SourceUnavailableError], a failed write a [WriteError]; a
    [CellException] is an exception raised by a cell that cleans or
    explores the frame of a source. *)
Inductive error :=
| SourceUnavailableError (path : string)
| SchemaError (column value : string)
| ReferentialError (source : string) (machineID : Z)
| WriteError (path : string)
| CellException (source : string).

(** What a run does not control, or what is not modelled: the blobs below
    the storage path, keyed by their path relative to it; which writes fail;
    what a failed write leaves at its path; and, for each source, whether
    the cells that work on its frame after its load and before the next
    load or the writes (the display of the first rows, the plot, for the
    telemetry frame the two [fillna] and the count) raise an exception. *)
Record Env := {
  storage : gmap string CsvFile;
  write_fails : string -> bool;
  write_residue : string -> option File;
  cell_raises : string -> bool
}.

(** Cells run one after another on the target file system and stop at the
    first error; the file system reached so far stays as it is. *)
Definition M (A : Type) : Type :=
  gmap string File -> gmap string File * (error + A).

#[export] Instance M_ret : MRet M := fun A x fs => (fs, inr x).

#[export] Instance M_bind : MBind M := fun A B k m fs =>
  match m fs with
  | (fs', inl e) => (fs', inl e)
  | (fs', inr x) => k x fs'
  end.

Definition raise {A} (e : error) : M A := fun fs => (fs, inl e).
Definition modify (g : gmap string File -> gmap string File) : M unit :=
  fun fs => (g fs, inr tt).

Fixpoint for_each {A} (l : list A) (body : A -> M unit) : M unit :=
  match l with
  | [] => mret tt
  | x :: l' => body x ;; for_each l' body
  end.

(** [os.path.join(a, b)] of [posixpath]. *)
Definition startswith_sep (s : string) : bool :=
  match s with String c _ => Ascii.eqb c "/" | EmptyString => false end.

Fixpoint endswith_sep (s : string) : bool :=
  match s with
  | EmptyString => false
  | String c EmptyString => Ascii.eqb c "/"
  | String _ s' => endswith_sep s'
  end.

Definition os_path_join (a b : string) : string :=
  if startswith_sep b then b
  else if String.eqb a "" || endswith_sep a then a +:+ b
  else a +:+ "/" +:+ b.

Fixpoint strip_prefix (p s : string) : option string :=
  match p with
  | EmptyString => Some s
  | String a p' =>
    match s with
    | String b s' => if Ascii.eqb a b then strip_prefix p' s' else None
    | EmptyString => None
    end
  end.

(** [dbutils.fs.mkdirs]: directories are implicit in the paths. *)
Definition dbutils_fs_mkdirs (dir : string) : M unit := mret tt.

(** [dbutils.fs.cp(src, dst, recurse=True)] with the files found below
    [src]: each is copied under [dst], over what was there. *)
Definition dbutils_fs_cp (files : gmap string CsvFile) (dst : string)
  : M unit :=
  modify (fun fs => kmap (String.app dst) (CsvData <$> files) ∪ fs).

(** [dbutils.fs.rm(path)]; removing a path that is not there is no error. *)
Definition dbutils_fs_rm (path : string) : M unit := modify (delete path).

(** [df.write.mode('overwrite').parquet(path)] *)
Definition write_parquet (env : Env) (df : DataFrame) (path : string)
  : M unit :=
  fun fs =>
    if write_fails env path
    then (partial_alter (fun _ => write_residue env path) path fs,
          inl (WriteError path))
    else (<[path := ParquetData df]> fs, inr tt).

End Dbfs.

(** ** The notebook *)

Module Notebook.
Import Spark Dbfs.

Definition parquet_files_names : gmap string string :=
  list_to_map
    [("machines", "machines_files.parquet"); ("maint", "maint_files.parquet");
     ("errors", "errors_files.parquet");
     ("telemetry", "telemetry_files.parquet");
     ("failures", "failure_files.parquet")].

Definition csv_files_names : gmap string string :=
  list_to_map
    [("machines", "machines.csv"); ("maint", "maint.csv");
     ("errors", "errors.csv"); ("telemetry", "telemetry.csv");
     ("failures", "failures.csv")].

Definition target_dir : string := "dbfs:/dataset/".
Definition storage_path : string :=
  "wasb://predmaintenance@amlgitsamples.blob.core.windows.net/data/".

(** The files below a directory of the blob store, and the file at a path
    of it. *)
Definition wasb_ls (env : Env) (dir : string) : gmap string CsvFile :=
  if String.eqb dir storage_path then storage env else ∅.

Definition wasb_open (env : Env) (path : string) : option CsvFile :=
  match strip_prefix storage_path path with
  | Some rel => storage env !! rel
  | None => None
  end.

(** One load cell: the file is read where it is in the blob store.  Spark
    reads the rows only when they are used; a run never writes to the blob
    store, so the frame is the one read here. *)
Definition spark_read_csv (env : Env) (path : string) : M DataFrame :=
  match wasb_open env path with
  | Some c => mret (load c)
  | None => raise (SourceUnavailableError path)
  end.

(** The missing-value handling of the telemetry cell. *)
Definition features_datetime : list string := ["datetime"].
Definition features_categorical : list string := ["machineID"].

Definition features_numeric (telemetry_cols : list string) : list string :=
  elements ((list_to_set telemetry_cols : gset string)
              ∖ list_to_set features_datetime
              ∖ list_to_set features_categorical).

(** The frame the two [fillna] give when they return. *)
Definition impute (telemetry : DataFrame) : DataFrame :=
  let telemetry_cols := columns telemetry in
  (* Replace numeric NA with 0 *)
  let telemetry :=
    fillna (PyInt 0) (features_numeric telemetry_cols) telemetry in
  (* Replace categorical NA with 'Unknown' *)
  fillna (PyStr "Unknown") features_categorical telemetry.

(** What the two [fillna] of [impute] do to one cell of the column [f]. *)
Definition impute_cell (telemetry_cols : list string) (f : StructField)
    (x : value) : value :=
  projection (PyStr "Unknown") features_categorical f
    (projection (PyInt 0) (features_numeric telemetry_cols) f x).

(** The paths the cells build with [os.path.join]; the keys they look up
    are all in the two dictionaries. *)
Definition csv_path (key : string) : string :=
  os_path_join storage_path (csv_files_names !!! key).
Definition parquet_path (key : string) : string :=
  os_path_join target_dir (parquet_files_names !!! key).
Definition csv_copy_path (key : string) : string :=
  os_path_join target_dir (csv_files_names !!! key).

(** The cells that work on the frame of a source once it is loaded.  They
    do not change the target; they either raise or let the run go on.  For
    the telemetry frame they hold the two [fillna], which raise on some
    frames (a name of the subset that is no column, a column name with a
    dot); [impute] is the frame they give when they return. *)
Definition explore (env : Env) (key : string) : M unit :=
  if cell_raises env key then raise (CellException key) else mret tt.

(** The cells after the first one, in the order of the notebook. *)
Definition cells_after_copy (env : Env) : M unit :=
  machines ← spark_read_csv env (csv_path "machines");
  explore env "machines" ;;
  errors ← spark_read_csv env (csv_path "errors");
  explore env "errors" ;;
  maint ← spark_read_csv env (csv_path "maint");
  explore env "maint" ;;
  telemetry ← spark_read_csv env (csv_path "telemetry");
  explore env "telemetry" ;;
  let telemetry := impute telemetry in
  failures ← spark_read_csv env (csv_path "failures");
  explore env "failures" ;;
  write_parquet env machines (parquet_path "machines") ;;
  write_parquet env errors (parquet_path "errors") ;;
  write_parquet env maint (parquet_path "maint") ;;
  write_parquet env telemetry (parquet_path "telemetry") ;;
  write_parquet env failures (parquet_path "failures") ;;
  for_each (map_to_list csv_files_names)
    (fun '(key, val) => dbutils_fs_rm (csv_copy_path key)).

(** The notebook: the copy of the first cell, then the other cells. *)
Definition run (env : Env) : M unit :=
  dbutils_fs_mkdirs target_dir ;;
  dbutils_fs_cp (wasb_ls env storage_path) target_dir ;;
  cells_after_copy env.

(** The target file system once the copy of the first cell is done. *)
Definition after_copy (env : Env) (fs : gmap string File)
  : gmap string File :=
  (dbutils_fs_cp (wasb_ls env storage_path) target_dir fs).1.

(** The five logical sources. *)
Definition sources : list string :=
  ["machines"; "errors"; "maint"; "telemetry"; "failures"].

(** The file of a source in the blob store. *)
Definition source_file (env : Env) (key : string) : option CsvFile :=
  storage env !! (csv_files_names !!! key).

(** The frame each source has when it is written. *)
Definition canonical_table (key : string) (c : CsvFile) : DataFrame :=
  if String.eqb key "telemetry" then impute (load c) else load c.

End Notebook.

(** ** The counts behind the bar plots

    The cells that plot the errors, the maintenance records and the
    failures first count the rows of the frame by a column,
    [spark.createDataFrame(df.groupBy(col).count().collect()).toPandas()].
    The plotting itself is not modelled. *)

Module Exploration.
Import Spark.

(** Equality of two cells as grouping sees it: nulls are equal, NaN equals
    NaN, doubles are compared by value. *)
Definition double_eqb (a b : double) : bool :=
  match a, b with
  | NaN, NaN => true
  | Num p, Num q => Qeq_bool p q
  | _, _ => false
  end.

Definition value_eqb (a b : value) : bool :=
  match a, b with
  | Null, Null => true
  | IntV x, IntV y | LongV x, LongV y | DecV x, DecV y | TsV x, TsV y =>
      x =? y
  | DoubleV x, DoubleV y => double_eqb x y
  | BoolV x, BoolV y => Bool.eqb x y
  | StrV x, StrV y => String.eqb x y
  | _, _ => false
  end.

(** The positions of the columns a name resolves to, from position [i]
    on. *)
Fixpoint positions (col : string) (s : list StructField) (i : nat)
  : list nat :=
  match s with
  | [] => []
  | f :: s' =>
    if columnEquals (name f) col then i :: positions col s' (S i)
    else positions col s' (S i)
  end.

(** A name refers to a column when exactly one column has it; no column, or
    more than one, is an error of the analysis. *)
Definition resolve (col : string) (s : list StructField) : option nat :=
  match positions col s 0 with
  | [j] => Some j
  | _ => None
  end.

(** One more row for the group of [k]. *)
Fixpoint tally (k : value) (acc : list (value * nat)) : list (value * nat) :=
  match acc with
  | [] => [(k, 1%nat)]
  | (k', n) :: acc' =>
    if value_eqb k' k then (k', S n) :: acc' else (k', n) :: tally k acc'
  end.

(** The key of a row in column [j]. *)
Definition key (j : nat) (r : list value) : value := default Null (r !! j).

(** [df.groupBy(col).count().collect()]: the groups with their counts, here
    in the order in which the keys are first met (Spark fixes no order). *)
Definition groupBy_count (col : string) (df : DataFrame)
  : option (list (value * nat)) :=
  match resolve col (schema df) with
  | Some j => Some (fold_left (fun acc r => tally (key j r) acc) (rows df) [])
  | None => None
  end.

Definition is_null (x : value) : bool :=
  match x with Null => true | _ => false end.

(** A value that went through Python: [collect] gives a Python int for an
    integer of either width, and [createDataFrame] reads a Python int as a
    long. *)
Definition from_python (x : value) : value :=
  match x with
  | IntV z => LongV z
  | _ => x
  end.

(** [spark.createDataFrame(data)] infers the schema from the rows: it raises
    on an empty list, and when the type of a column cannot be told because
    all its values are [None]. *)
Definition createDataFrame (data : list (value * nat))
  : option (list (value * nat)) :=
  match data with
  | [] => None
  | _ =>
    if forallb (fun kv => is_null kv.1) data then None
    else Some (map (fun kv => (from_python kv.1, kv.2)) data)
  end.

Definition count_by (col : string) (df : DataFrame)
  : option (list (value * nat)) :=
  match groupBy_count col df with
  | Some data => createDataFrame data
  | None => None
  end.

(** The sum of the counts of the groups. *)
Definition total (groups : list (value * nat)) : nat :=
  fold_right (fun kv n => (kv.2 + n)%nat) 0%nat groups.

(** No key of an earlier group equals the key of a later one. *)
Definition distinct (keys : list value) : Prop :=
  forall i j k1 k2, (i < j)%nat -> keys !! i = Some k1 ->
    keys !! j = Some k2 -> value_eqb k1 k2 = false.

(** Fields that hold nothing, and fields that hold nothing or an integer
    literal of the 32-bit range. *)
Definition blank (x : field) : Prop := lex x = LEmpty.

Definition int_or_blank (x : field) : Prop :=
  lex x = LEmpty \/ exists z, lex x = LInteger z /\ in_int z = true.

End Exploration.

(** ** Sample data

  A small data set with the columns of the five sources, used to run the
  notebook on concrete input. *)

Module Fixtures.
Import Spark Dbfs Notebook.

Definition empty : field := {| text := ""; lex := LEmpty |}.
Definition int (s : string) (z : Z) : field :=
  {| text := s; lex := LInteger z |}.
Definition real (s : string) (q : Q) : field :=
  {| text := s; lex := LReal (Num q) |}.
Definition time (s : string) (t : Z) : field :=
  {| text := s; lex := LTime t |}.
Definition txt (s : string) : field := {| text := s; lex := LText |}.

(** Machines 1, 2 and 3. *)
Definition machines_csv : CsvFile :=
  {| header := ["machineID"; "model"; "age"];
     records :=
       [ [int "1" 1; txt "model3"; int "18" 18];
         [int "2" 2; txt "model4"; int "7" 7];
         [int "3" 3; txt "model3"; int "8" 8] ] |}.

(** The second error is logged for machine 99, which is not in
    [machines_csv]. *)
Definition errors_csv : CsvFile :=
  {| header := ["datetime"; "machineID"; "errorID"];
     records :=
       [ [time "2015-01-03 07:00:00" 1420268400; int "1" 1; txt "error1"];
         [time "2015-01-03 20:00:00" 1420315200; int "99" 99;
          txt "error3"] ] |}.

(** The second record names a component outside comp1..comp4; the third
    has no machine. *)
Definition maint_csv : CsvFile :=
  {| header := ["datetime"; "machineID"; "comp"];
     records :=
       [ [time "2014-06-01 06:00:00" 1401602400; int "1" 1; txt "comp2"];
         [time "2014-07-16 06:00:00" 1405490400; int "2" 2;
          txt "component5"];
         [time "2014-07-31 06:00:00" 1406786400; empty; txt "comp3"] ] |}.

(** The second reading has no voltage, the third no machine. *)
Definition telemetry_csv : CsvFile :=
  {| header :=
       ["datetime"; "machineID"; "voltage"; "rotation"; "pressure";
        "vibration"];
     records :=
       [ [time "2015-01-01 06:00:00" 1420092000; int "1" 1;
          real "176.2" (1762 # 10); real "418.5" (4185 # 10);
          real "113.1" (1131 # 10); int "45" 45];
         [time "2015-01-01 07:00:00" 1420095600; int "1" 1; empty;
          real "402.7" (4027 # 10); real "95.5" (955 # 10);
          real "43.4" (434 # 10)];
         [time "2015-01-01 08:00:00" 1420099200; empty;
          real "170.9" (1709 # 10); real "527.3" (5273 # 10);
          real "75.2" (752 # 10); real "34.1" (341 # 10)] ] |}.

(** A telemetry file whose voltage column holds text in its first record
    and nothing in its second. *)
Definition telemetry_text_csv : CsvFile :=
  {| header :=
       ["datetime"; "machineID"; "voltage"; "rotation"; "pressure";
        "vibration"];
     records :=
       [ [time "2015-01-01 06:00:00" 1420092000; int "1" 1; txt "abc";
          real "418.5" (4185 # 10); real "113.1" (1131 # 10);
          real "45.1" (451 # 10)];
         [time "2015-01-01 07:00:00" 1420095600; int "1" 1; empty;
          real "402.7" (4027 # 10); real "95.5" (955 # 10);
          real "43.4" (434 # 10)] ] |}.

Definition failures_csv : CsvFile :=
  {| header := ["datetime"; "machineID"; "failure"];
     records :=
       [ [time "2015-01-05 06:00:00" 1420437600; int "1" 1;
          txt "comp4"] ] |}.

Definition blobs : gmap string CsvFile :=
  list_to_map
    [("machines.csv", machines_csv); ("errors.csv", errors_csv);
     ("maint.csv", maint_csv); ("telemetry.csv", telemetry_csv);
     ("failures.csv", failures_csv)].

(** Every write succeeds. *)
Definition env_ok : Env :=
  {| storage := blobs;
     write_fails := fun _ => false;
     write_residue := fun _ => None;
     cell_raises := fun _ => false |}.

(** The blob store holds the telemetry file with text in it. *)
Definition env_text : Env :=
  {| storage := <["telemetry.csv" := telemetry_text_csv]> blobs;
     write_fails := fun _ => false;
     write_residue := fun _ => None;
     cell_raises := fun _ => false |}.

(** The write of the maint table fails and leaves nothing at its path. *)
Definition env_maint_fails : Env :=
  {| storage := blobs;
     write_fails := String.eqb "dbfs:/dataset/maint_files.parquet";
     write_residue := fun _ => None;
     cell_raises := fun _ => false |}.

(** An earlier snapshot at the target: the five artifacts, each with the
    columns of its source and no row. *)
Definition prior (c : CsvFile) : File :=
  ParquetData (load {| header := header c; records := [] |}).

Definition old_fs : gmap string File :=
  list_to_map
    [(parquet_path "machines", prior machines_csv);
     (parquet_path "errors", prior errors_csv);
     (parquet_path "maint", prior maint_csv);
     (parquet_path "telemetry", prior telemetry_csv);
     (parquet_path "failures", prior failures_csv)].

End Fixtures.

(** Further sample environments. *)

Module MoreFixtures.
Import Spark Dbfs Notebook Fixtures.

(** The errors file is not in the blob store; every write would fail. *)
Definition env_no_errors : Env :=
  {| storage := delete "errors.csv" blobs;
     write_fails := fun _ => true;
     write_residue := fun _ => None;
     cell_raises := fun _ => false |}.

(** The blob store holds a sixth file besides the five sources. *)
Definition notes_csv : CsvFile :=
  {| header := ["note"]; records := [ [txt "simulated data, 2015"] ] |}.

Definition env_notes : Env :=
  {| storage := <["notes.csv" := notes_csv]> blobs;
     write_fails := fun _ => false;
     write_residue := fun _ => None;
     cell_raises := fun _ => false |}.

(** A target that already holds a file of its own. *)
Definition fs_with_report : gmap string File :=
  {[ "dbfs:/dataset/report_2014.parquet" := prior machines_csv ]}.

(** A telemetry file with one reading, which has no voltage. *)
Definition telemetry_unread_csv : CsvFile :=
  {| header := ["datetime"; "machineID"; "voltage"; "rotation"];
     records :=
       [ [time "2015-01-01 06:00:00" 1420092000; int "1" 1; empty;
          real "402.7" (4027 # 10)] ] |}.

(** A telemetry file whose second reading has no datetime. *)
Definition telemetry_gap_csv : CsvFile :=
  {| header := ["datetime"; "machineID"; "voltage"];
     records :=
       [ [time "2015-01-01 06:00:00" 1420092000; int "1" 1;
          real "176.2" (1762 # 10)];
         [empty; int "1" 1; real "162.8" (1628 # 10)] ] |}.

(** A telemetry file whose machines are named by text; the second reading
    has no machine. *)
Definition telemetry_tagged_csv : CsvFile :=
  {| header := ["datetime"; "machineID"; "voltage"];
     records :=
       [ [time "2015-01-01 06:00:00" 1420092000; txt "M-17";
          real "176.2" (1762 # 10)];
         [time "2015-01-01 07:00:00" 1420095600; empty;
          real "162.8" (1628 # 10)] ] |}.

(** A file whose second record is short, whose third is long, and whose
    column c holds nothing. *)
Definition ragged_csv : CsvFile :=
  {| header := ["a"; "b"; "c"];
     records :=
       [ [int "1" 1; int "2" 2; empty];
         [int "4" 4];
         [empty; int "6" 6; empty; int "8" 8] ] |}.

(** An errors file with a repeated error and a record without error. *)
Definition errors_log_csv : CsvFile :=
  {| header := ["datetime"; "machineID"; "errorID"];
     records :=
       [ [time "2015-01-03 07:00:00" 1420268400; int "1" 1; txt "error1"];
         [time "2015-01-03 20:00:00" 1420315200; int "2" 2; txt "error3"];
         [time "2015-01-04 06:00:00" 1420351200; int "2" 2; empty];
         [time "2015-01-10 15:00:00" 1420902000; int "3" 3;
          txt "error1"] ] |}.

(** An errors file with its header and no record. *)
Definition errors_none_csv : CsvFile :=
  {| header := ["datetime"; "machineID"; "errorID"]; records := [] |}.

End MoreFixtures.

(** ** Facts about [fillna] and the missing-value handling *)

Section FillNa.
Import Spark Notebook.

Lemma zip_with_twice {A B} (g h : A -> B -> B) (s : list A) (r : list B) :
  zip_with g s (zip_with h s r) = zip_with (fun a b => g a (h a b)) s r.
Proof.
  revert r. induction s as [|a s IH]; intros [|b r]; simpl; try reflexivity.
  now rewrite IH.
Qed.

Lemma zip_with_fix {A B} (g : A -> B -> B) (s : list A) (r : list B) :
  (forall a b, g a (g a b) = g a b) ->
  zip_with g s (zip_with g s r) = zip_with g s r.
Proof.
  intros Hg. rewrite zip_with_twice.
  revert r. induction s as [|a s IH]; intros [|b r]; simpl; try reflexivity.
  now rewrite Hg, IH.
Qed.

(** [impute], cell by cell. *)
Lemma impute_rows (df : DataFrame) :
  impute df =
  {| schema := schema df;
     rows := map (zip_with (impute_cell (columns df)) (schema df))
                 (rows df) |}.
Proof.
  unfold impute, fillna; simpl. f_equal.
  rewrite map_map. apply map_ext. intros r.
  now rewrite zip_with_twice.
Qed.

Lemma impute_schema (df : DataFrame) : schema (impute df) = schema df.
Proof. reflexivity. Qed.

Lemma impute_count (df : DataFrame) : count (impute df) = count df.
Proof. unfold count. rewrite impute_rows. simpl. apply length_map. Qed.

Lemma fillCol_fix (f : StructField) (v : PyValue) (x : value) :
  fillCol f v (fillCol f v x) = fillCol f v x.
Proof.
  unfold fillCol, colValue, replacement.
  destruct f as [n dt], v as [z|s], dt, x as [| | | |[|q]| | |];
    reflexivity.
Qed.

Lemma projection_fix v subset (f : StructField) (x : value) :
  projection v subset f (projection v subset f x) = projection v subset f x.
Proof.
  unfold projection.
  destruct (typeMatches v (dataType f) && existsb _ subset);
    [apply fillCol_fix | reflexivity].
Qed.

(** A numeric column is never a string column, so at most one of the two
    [fillna] touches a given column. *)
Lemma impute_cell_fix cols (f : StructField) (x : value) :
  impute_cell cols f (impute_cell cols f x) = impute_cell cols f x.
Proof.
  unfold impute_cell.
  destruct (isNumeric (dataType f)) eqn:Hnum.
  - assert (Hid : forall y,
              projection (PyStr "Unknown") features_categorical f y = y).
    { intros y. unfold projection, typeMatches.
      destruct (dataType f); try discriminate Hnum; reflexivity. }
    rewrite !Hid. apply projection_fix.
  - assert (Hid : forall y,
              projection (PyInt 0) (features_numeric cols) f y = y).
    { intros y. unfold projection, typeMatches. now rewrite Hnum. }
    rewrite !Hid. apply projection_fix.
Qed.

Lemma fillCol_present (f : StructField) (v : PyValue) (x : value) :
  missing x = false -> fillCol f v x = x.
Proof.
  unfold fillCol, colValue.
  destruct (dataType f), x as [| | | |[|q]| | |];
    simpl; intros H; try discriminate H; reflexivity.
Qed.

Lemma projection_present v subset (f : StructField) (x : value) :
  missing x = false -> projection v subset f x = x.
Proof.
  intros H. unfold projection.
  destruct (_ && _); [now apply fillCol_present | reflexivity].
Qed.

Lemma impute_cell_present cols (f : StructField) (x : value) :
  missing x = false -> impute_cell cols f x = x.
Proof.
  intros H. unfold impute_cell.
  rewrite (projection_present (PyInt 0)) by exact H.
  now apply projection_present.
Qed.

(** The cell of row [i] and column [j] after [impute]. *)
Lemma impute_lookup (df : DataFrame) (i j : nat) r (f : StructField) x :
  rows df !! i = Some r -> schema df !! j = Some f -> r !! j = Some x ->
  exists r', rows (impute df) !! i = Some r'
             /\ r' !! j = Some (impute_cell (columns df) f x)
             /\ forall k fk w, schema df !! k = Some fk -> r !! k = Some w ->
                  r' !! k = Some (impute_cell (columns df) fk w).
Proof.
  intros Hr Hf Hx. rewrite impute_rows. simpl.
  exists (zip_with (impute_cell (columns df)) (schema df) r).
  assert (Hcell : forall k fk w, schema df !! k = Some fk -> r !! k = Some w ->
            zip_with (impute_cell (columns df)) (schema df) r !! k
            = Some (impute_cell (columns df) fk w)).
  { intros k fk w Hk Hw. rewrite lookup_zip_with, Hk. simpl. now rewrite Hw. }
  split; [|split].
  - change (map ?g ?l) with (g <$> l). now rewrite list_lookup_fmap, Hr.
  - now apply Hcell.
  - exact Hcell.
Qed.

Lemma toLowerCase_refl (a : string) : columnEquals a a = true.
Proof. unfold columnEquals. apply String.eqb_refl. Qed.

(** A column other than the datetime and the categorical ones is in the
    subset of the numeric [fillna]. *)
Lemma features_numeric_resolves (cols : list string) (n : string) :
  n ∈ cols -> n <> "datetime" -> n <> "machineID" ->
  existsb (columnEquals n) (features_numeric cols) = true.
Proof.
  intros Hin Hd Hm. apply existsb_exists. exists n. split.
  - apply list_elem_of_In. unfold features_numeric.
    apply elem_of_elements.
    unfold features_datetime, features_categorical.
    rewrite !elem_of_difference, !elem_of_list_to_set.
    repeat split; [exact Hin | |]; intros Hc;
      apply list_elem_of_singleton in Hc; contradiction.
  - apply toLowerCase_refl.
Qed.

Lemma schema_name_in (df : DataFrame) (j : nat) (f : StructField) :
  schema df !! j = Some f -> name f ∈ columns df.
Proof.
  intros H. unfold columns. change (map ?g ?l) with (g <$> l).
  apply list_elem_of_fmap. exists f. split; [reflexivity|].
  apply list_elem_of_lookup. now exists j.
Qed.

(** In a numeric column outside the keys, a typed cell is no longer
    missing after the two [fillna], and a missing one has become zero. *)
Lemma impute_cell_numeric cols (f : StructField) (x : value) :
  name f ∈ cols -> name f <> "datetime" -> name f <> "machineID" ->
  isNumeric (dataType f) = true -> has_type (dataType f) x = true ->
  missing (impute_cell cols f x) = false
  /\ (missing x = true -> is_zero (impute_cell cols f x) = true).
Proof.
  intros Hin Hd Hm Hnum Hty. unfold impute_cell, projection.
  rewrite (features_numeric_resolves cols (name f) Hin Hd Hm).
  destruct f as [n dt]; simpl in *.
  destruct dt; try discriminate Hnum;
    destruct x as [| | | |[|q]| | |]; try discriminate Hty;
    simpl; split; try reflexivity; intros H; try discriminate H;
    reflexivity.
Qed.

End FillNa.

(** ** Facts about the CSV reader *)

Section Reader.
Import Spark.

Lemma castTo_has_type (dt : DataType) (x : field) :
  has_type dt (castTo dt x) = true.
Proof.
  unfold castTo. destruct x as [s l]; simpl.
  destruct l, dt; simpl; try reflexivity;
    match goal with |- context [if ?b then _ else _] => destruct b end;
    reflexivity.
Qed.

Lemma convert_lookup (s : list StructField) (r : list field) (j : nat)
    (f : StructField) :
  s !! j = Some f ->
  convert s r !! j
  = Some (match r !! j with
          | Some x => castTo (dataType f) x
          | None => Null
          end).
Proof.
  revert r j. induction s as [|g s IH]; intros r j Hj; [discriminate Hj|].
  destruct j as [|j]; simpl in Hj.
  - injection Hj as ->. destruct r; reflexivity.
  - destruct r as [|x r]; simpl; rewrite (IH _ j Hj); reflexivity.
Qed.

(** Every cell of a loaded frame is null or of the type of its column. *)
Lemma load_has_type (c : CsvFile) (i j : nat) r (f : StructField) x :
  rows (load c) !! i = Some r -> schema (load c) !! j = Some f ->
  r !! j = Some x -> has_type (dataType f) x = true.
Proof.
  unfold load; simpl. intros Hr Hf Hx.
  change (map ?g ?l) with (g <$> l) in Hr.
  rewrite list_lookup_fmap in Hr.
  destruct (records c !! i) as [rec|]; [|discriminate Hr].
  injection Hr as <-. rewrite (convert_lookup _ _ _ _ Hf) in Hx.
  injection Hx as <-. destruct (rec !! j); [apply castTo_has_type|].
  reflexivity.
Qed.

Lemma load_count (c : CsvFile) : count (load c) = length (records c).
Proof. unfold count, load; simpl. apply length_map. Qed.

Lemma inferRowType_length (ts : list DataType) (r : list field) :
  length (inferRowType ts r) = length ts.
Proof.
  revert r. induction ts as [|t ts IH]; intros [|x r]; simpl;
    try reflexivity.
  now rewrite IH.
Qed.

Lemma inferRowType_lookup (ts : list DataType) (r : list field) (j : nat) :
  inferRowType ts r !! j
  = match ts !! j with
    | Some t => Some (match r !! j with
                      | Some x => inferField t x
                      | None => t
                      end)
    | None => None
    end.
Proof.
  revert r j. induction ts as [|t ts IH]; intros r j.
  - destruct r; reflexivity.
  - destruct r as [|x r], j as [|j]; simpl; try reflexivity.
    + now destruct (ts !! j).
    + apply IH.
Qed.

(** Text that is no number, timestamp or boolean makes any column a string
    column, and a string column stays one. *)
Lemma inferField_text (t : DataType) (x : field) :
  lex x = LText -> inferField t x = StringType.
Proof.
  intros H. unfold inferField, tryParseInteger, tryParseLong,
    tryParseDecimal, tryParseDouble, tryParseTimestamp, tryParseBoolean.
  rewrite H. now destruct t.
Qed.

Lemma inferField_string (x : field) : inferField StringType x = StringType.
Proof. unfold inferField. now destruct (lex x). Qed.

Lemma rootTypes_string_stays (recs : list (list field)) ts (j : nat) :
  ts !! j = Some StringType ->
  fold_left inferRowType recs ts !! j = Some StringType.
Proof.
  revert ts. induction recs as [|r recs IH]; intros ts H; simpl; [exact H|].
  apply IH. rewrite inferRowType_lookup, H.
  destruct (r !! j); [now rewrite inferField_string | reflexivity].
Qed.

Lemma rootTypes_text (recs : list (list field)) ts (i j : nat) r x :
  recs !! i = Some r -> r !! j = Some x -> lex x = LText ->
  (j < length ts)%nat ->
  fold_left inferRowType recs ts !! j = Some StringType.
Proof.
  revert ts i. induction recs as [|r0 recs IH]; intros ts i Hr Hx Hl Hj;
    [discriminate Hr|].
  destruct i as [|i]; simpl in Hr |- *.
  - injection Hr as ->. apply rootTypes_string_stays.
    rewrite inferRowType_lookup.
    destruct (lookup_lt_is_Some_2 ts j Hj) as [t Ht].
    now rewrite Ht, Hx, inferField_text.
  - apply (IH _ i Hr Hx Hl). now rewrite inferRowType_length.
Qed.

(** A column that holds such text in some record is loaded as a string
    column, and the text is kept in the cell. *)
Lemma load_text_column (c : CsvFile) (i j : nat) r x :
  records c !! i = Some r -> r !! j = Some x -> lex x = LText ->
  (j < length (header c))%nat ->
  exists n row,
    header c !! j = Some n
    /\ schema (load c) !! j = Some {| name := n; dataType := StringType |}
    /\ rows (load c) !! i = Some row
    /\ row !! j = Some (StrV (text x)).
Proof.
  intros Hr Hx Hl Hj.
  destruct (lookup_lt_is_Some_2 (header c) j Hj) as [n Hn].
  assert (Hs : schema (load c) !! j
               = Some {| name := n; dataType := StringType |}).
  { unfold load, infer; simpl. rewrite lookup_zip_with, Hn. simpl.
    rewrite (rootTypes_text _ _ i j r x Hr Hx Hl); [reflexivity|].
    now rewrite length_replicate. }
  exists n, (convert (schema (load c)) r). repeat split; try assumption.
  - unfold load at 1; simpl. change (map ?g ?l) with (g <$> l).
    now rewrite list_lookup_fmap, Hr.
  - rewrite (convert_lookup _ _ _ _ Hs), Hx. simpl.
    unfold castTo. now rewrite Hl.
Qed.

End Reader.

(** ** Facts about a run *)

Section Run.
Import Spark Dbfs Notebook.

(** A run, from its outcome. *)
Lemma run_outcome (env : Env) (fs : gmap string File) (o : error + unit) :
  (run env fs).2 = o -> run env fs = ((run env fs).1, o).
Proof. intros <-. now destruct (run env fs). Qed.

(** The order in which the loop over [csv_files_names] meets its keys. *)
Lemma csv_items :
  map_to_list csv_files_names
  = [("machines", "machines.csv"); ("maint", "maint.csv");
     ("errors", "errors.csv"); ("failures", "failures.csv");
     ("telemetry", "telemetry.csv")].
Proof. vm_compute. reflexivity. Qed.

Lemma wasb_ls_storage (env : Env) : wasb_ls env storage_path = storage env.
Proof. unfold wasb_ls. now rewrite String.eqb_refl. Qed.

Lemma after_copy_eq (env : Env) (fs : gmap string File) :
  after_copy env fs
  = kmap (String.app target_dir) (CsvData <$> storage env) ∪ fs.
Proof.
  unfold after_copy, dbutils_fs_cp, modify. simpl.
  now rewrite wasb_ls_storage.
Qed.

(** Everything below the storage path is copied under the target. *)
Lemma after_copy_lookup (env : Env) fs (rel : string) (c : CsvFile) :
  storage env !! rel = Some c ->
  after_copy env fs !! (target_dir +:+ rel) = Some (CsvData c).
Proof.
  intros H. rewrite after_copy_eq. apply lookup_union_Some_l.
  rewrite (lookup_kmap (String.app target_dir)), lookup_fmap, H.
  reflexivity.
Qed.

Ltac path_ne := apply String.eqb_neq; vm_compute; reflexivity.

Ltac in_sources H :=
  unfold sources in H;
  repeat (apply elem_of_cons in H; destruct H as [->|H]);
  [..|apply elem_of_nil in H; contradiction].

Lemma wasb_open_csv (env : Env) (key : string) :
  key ∈ sources -> wasb_open env (csv_path key) = source_file env key.
Proof. intros H. in_sources H; reflexivity. Qed.

Lemma csv_copy_path_eq (key : string) :
  key ∈ sources -> csv_copy_path key = target_dir +:+ (csv_files_names !!! key).
Proof. intros H. in_sources H; vm_compute; reflexivity. Qed.

Lemma parquet_path_eq (key : string) :
  key ∈ sources ->
  parquet_path key = target_dir +:+ (parquet_files_names !!! key).
Proof. intros H. in_sources H; vm_compute; reflexivity. Qed.

Lemma parquet_paths_NoDup : NoDup (map parquet_path sources).
Proof.
  unfold sources; simpl.
  repeat (apply NoDup_cons; split;
          [rewrite ?not_elem_of_cons;
           repeat split; try path_ne; apply not_elem_of_nil|]).
  apply NoDup_nil_2.
Qed.

Lemma after_copy_csv (env : Env) fs (key : string) (c : CsvFile) :
  key ∈ sources -> source_file env key = Some c ->
  after_copy env fs !! csv_copy_path key = Some (CsvData c).
Proof.
  intros Hk Hc. rewrite (csv_copy_path_eq key Hk).
  now apply after_copy_lookup.
Qed.

Ltac unfold_run :=
  unfold run, cells_after_copy;
  cbv [mbind M_bind mret M_ret dbutils_fs_mkdirs dbutils_fs_cp modify
       spark_read_csv raise write_parquet explore];
  rewrite ?wasb_ls_storage;
  rewrite !wasb_open_csv by (unfold sources; repeat constructor).

Ltac unfold_loop :=
  rewrite csv_items;
  cbv [for_each mbind M_bind mret M_ret dbutils_fs_rm modify].

Ltac src_in := unfold sources; repeat constructor.

(** The run is the cells after the first one, started on the target as the
    copy made it. *)
Lemma run_after_copy (env : Env) (fs : gmap string File) :
  run env fs = cells_after_copy env (after_copy env fs).
Proof. reflexivity. Qed.

(** The target file system a successful run ends with. *)
Lemma run_ok_inv (env : Env) (fs fs' : gmap string File) :
  run env fs = (fs', inr tt) ->
  exists cm ce cmt ct cf,
    source_file env "machines" = Some cm
    /\ source_file env "errors" = Some ce
    /\ source_file env "maint" = Some cmt
    /\ source_file env "telemetry" = Some ct
    /\ source_file env "failures" = Some cf
    /\ fs' =
       delete (csv_copy_path "telemetry")
         (delete (csv_copy_path "failures")
            (delete (csv_copy_path "errors")
               (delete (csv_copy_path "maint")
                  (delete (csv_copy_path "machines")
       (<[parquet_path "failures" := ParquetData (load cf)]>
          (<[parquet_path "telemetry" := ParquetData (impute (load ct))]>
             (<[parquet_path "maint" := ParquetData (load cmt)]>
                (<[parquet_path "errors" := ParquetData (load ce)]>
                   (<[parquet_path "machines" := ParquetData (load cm)]>
                      (after_copy env fs))))))))))
    /\ forall key, key ∈ sources ->
         cell_raises env key = false
         /\ write_fails env (parquet_path key) = false.
Proof.
  rewrite after_copy_eq. unfold_run.
  destruct (source_file env "machines") as [cm|]; [|discriminate].
  destruct (cell_raises env "machines") eqn:E1; [discriminate|].
  destruct (source_file env "errors") as [ce|]; [|discriminate].
  destruct (cell_raises env "errors") eqn:E2; [discriminate|].
  destruct (source_file env "maint") as [cmt|]; [|discriminate].
  destruct (cell_raises env "maint") eqn:E3; [discriminate|].
  destruct (source_file env "telemetry") as [ct|]; [|discriminate].
  destruct (cell_raises env "telemetry") eqn:E4; [discriminate|].
  destruct (source_file env "failures") as [cf|]; [|discriminate].
  destruct (cell_raises env "failures") eqn:E5; [discriminate|].
  destruct (write_fails env (parquet_path "machines")) eqn:W1;
    [discriminate|].
  destruct (write_fails env (parquet_path "errors")) eqn:W2;
    [discriminate|].
  destruct (write_fails env (parquet_path "maint")) eqn:W3;
    [discriminate|].
  destruct (write_fails env (parquet_path "telemetry")) eqn:W4;
    [discriminate|].
  destruct (write_fails env (parquet_path "failures")) eqn:W5;
    [discriminate|].
  unfold_loop. intros H. injection H as <-.
  exists cm, ce, cmt, ct, cf. repeat split; try reflexivity;
    in_sources H; assumption.
Qed.

Ltac lookup_final :=
  rewrite ?lookup_delete_ne by path_ne;
  rewrite ?lookup_insert_ne by path_ne;
  try apply lookup_insert_eq.

(** What a successful run leaves for each source: its artifact holds the
    frame of the source, the copy of its CSV file was there after the first
    cell and is gone; and no other path of the target has changed since
    the copy. *)
Lemma run_ok_spec (env : Env) (fs fs' : gmap string File) :
  run env fs = (fs', inr tt) ->
  (forall key, key ∈ sources ->
     exists c, source_file env key = Some c
       /\ fs' !! parquet_path key = Some (ParquetData (canonical_table key c))
       /\ after_copy env fs !! csv_copy_path key = Some (CsvData c)
       /\ fs' !! csv_copy_path key = None)
  /\ (forall p, p ∉ map parquet_path sources ->
        p ∉ map csv_copy_path sources ->
        fs' !! p = after_copy env fs !! p).
Proof.
  intros H.
  destruct (run_ok_inv env fs fs' H)
    as (cm & ce & cmt & ct & cf & Hm & He & Hmt & Ht & Hf & Hfs & _).
  split.
  - intros key Hk.
    pose proof (fun c => after_copy_csv env fs key c Hk) as Hcp.
    in_sources Hk;
      [exists cm | exists ce | exists cmt | exists ct | exists cf];
      (split; [assumption|]); rewrite Hfs;
      (split; [lookup_final|]);
      (split; [apply Hcp; assumption|]);
      rewrite ?lookup_delete_ne by path_ne; apply lookup_delete_eq.
  - intros p Hp Hc. unfold sources in Hp, Hc. simpl in Hp, Hc.
    rewrite !not_elem_of_cons in Hp. rewrite !not_elem_of_cons in Hc.
    destruct Hp as (P1 & P2 & P3 & P4 & P5 & _).
    destruct Hc as (C1 & C2 & C3 & C4 & C5 & _).
    rewrite Hfs.
    rewrite !lookup_delete_ne by congruence.
    rewrite !lookup_insert_ne by congruence. reflexivity.
Qed.

(** A run succeeds as soon as the five files are in the blob store, no cell
    raises and no write fails. *)
Lemma run_succeeds (env : Env) (fs : gmap string File) :
  (forall key, key ∈ sources -> is_Some (source_file env key)) ->
  (forall key, key ∈ sources -> cell_raises env key = false) ->
  (forall key, key ∈ sources -> write_fails env (parquet_path key) = false) ->
  exists fs', run env fs = (fs', inr tt).
Proof.
  intros Hs Hc Hw. unfold_run.
  destruct (Hs "machines" ltac:(src_in)) as [cm ->].
  destruct (Hs "errors" ltac:(src_in)) as [ce ->].
  destruct (Hs "maint" ltac:(src_in)) as [cmt ->].
  destruct (Hs "telemetry" ltac:(src_in)) as [ct ->].
  destruct (Hs "failures" ltac:(src_in)) as [cf ->].
  rewrite !Hc by src_in.
  rewrite !Hw by src_in. unfold_loop. eexists. reflexivity.
Qed.

Ltac lookup_partial :=
  rewrite ?lookup_partial_alter_ne by path_ne;
  rewrite ?lookup_insert_ne by path_ne;
  try apply lookup_insert_eq; try reflexivity.

Ltac split_index m H :=
  destruct m as [|[|[|[|[|m]]]]]; simpl in H; try discriminate H; try lia;
  injection H as <-.

Ltac stop_load k :=
  intros [= <- <-]; left; split; [reflexivity|]; left; exists k;
  split; [src_in|]; split; [reflexivity | assumption].

Ltac stop_cell k :=
  intros [= <- <-]; left; split; [reflexivity|]; right; exists k;
  split; [src_in|]; split; [reflexivity | assumption].

Ltac stop_write k :=
  intros [= <- <-]; right; exists k;
  split; [src_in|]; split; [reflexivity|]; split; [assumption|];
  split;
  [ let j := fresh "j" in let Hj := fresh "Hj" in
    intros j Hj; in_sources Hj; eauto
  | let j := fresh "j" in let Hj := fresh "Hj" in
    intros j Hj; in_sources Hj; lookup_partial ].

(** The ways a run fails.  It stops at a load or at a cell before any write,
    the target being as the copy made it; or it stops at a write, all files
    having been loaded, with the copies of the CSV files still there. *)
Lemma run_failure (env : Env) (fs fs' : gmap string File) (e : error) :
  run env fs = (fs', inl e) ->
  (fs' = after_copy env fs
   /\ ((exists key, key ∈ sources
          /\ e = SourceUnavailableError (csv_path key)
          /\ source_file env key = None)
       \/ (exists key, key ∈ sources
             /\ e = CellException key /\ cell_raises env key = true)))
  \/ (exists key, key ∈ sources
        /\ e = WriteError (parquet_path key)
        /\ write_fails env (parquet_path key) = true
        /\ (forall k, k ∈ sources -> is_Some (source_file env k))
        /\ (forall k, k ∈ sources ->
              fs' !! csv_copy_path k = after_copy env fs !! csv_copy_path k)).
Proof.
  rewrite after_copy_eq. unfold_run.
  destruct (source_file env "machines") as [cm|] eqn:Hm;
    [|stop_load "machines"].
  destruct (cell_raises env "machines") eqn:E1; [stop_cell "machines"|].
  destruct (source_file env "errors") as [ce|] eqn:He;
    [|stop_load "errors"].
  destruct (cell_raises env "errors") eqn:E2; [stop_cell "errors"|].
  destruct (source_file env "maint") as [cmt|] eqn:Hmt;
    [|stop_load "maint"].
  destruct (cell_raises env "maint") eqn:E3; [stop_cell "maint"|].
  destruct (source_file env "telemetry") as [ct|] eqn:Ht;
    [|stop_load "telemetry"].
  destruct (cell_raises env "telemetry") eqn:E4; [stop_cell "telemetry"|].
  destruct (source_file env "failures") as [cf|] eqn:Hf;
    [|stop_load "failures"].
  destruct (cell_raises env "failures") eqn:E5; [stop_cell "failures"|].
  destruct (write_fails env (parquet_path "machines")) eqn:W1;
    [stop_write "machines"|].
  destruct (write_fails env (parquet_path "errors")) eqn:W2;
    [stop_write "errors"|].
  destruct (write_fails env (parquet_path "maint")) eqn:W3;
    [stop_write "maint"|].
  destruct (write_fails env (parquet_path "telemetry")) eqn:W4;
    [stop_write "telemetry"|].
  destruct (write_fails env (parquet_path "failures")) eqn:W5;
    [stop_write "failures"|].
  unfold_loop. discriminate.
Qed.

(** The only errors of a run: a source that is not there, a cell that
    raises, a write that fails. *)
Lemma run_error_kind (env : Env) (fs : gmap string File) (e : error) :
  (run env fs).2 = inl e ->
  (exists path, e = SourceUnavailableError path)
  \/ (exists key, e = CellException key)
  \/ (exists path, e = WriteError path).
Proof.
  intros H. apply run_outcome in H.
  destruct (run_failure env fs _ e H)
    as [[_ [(k & _ & -> & _) | (k & _ & -> & _)]] | (k & _ & -> & _)];
    eauto.
Qed.

(** C7, amended: persistence is sequential, not all-or-nothing.  The five
    tables are written one after the other in the order of [sources], each
    write replacing what is at its path.  When the cells before the writes
    have passed and the write of the source at position [n] is the first
    that fails, the run stops with the [WriteError] of that path; the
    sources before it have their new artifact already, the paths of those
    after it hold what they held after the copy of the first cell, and the
    copies of the CSV files are still there. *)
Theorem write_failure_keeps_earlier_writes (env : Env)
    (fs : gmap string File) (n : nat) (key : string) :
  (forall k, k ∈ sources ->
     is_Some (source_file env k) /\ cell_raises env k = false) ->
  sources !! n = Some key ->
  write_fails env (parquet_path key) = true ->
  (forall m k, (m < n)%nat -> sources !! m = Some k ->
     write_fails env (parquet_path k) = false) ->
  exists fs',
    run env fs = (fs', inl (WriteError (parquet_path key)))
    /\ fs' !! parquet_path key = write_residue env (parquet_path key)
    /\ (forall m k, (m < n)%nat -> sources !! m = Some k ->
          exists c, source_file env k = Some c
            /\ fs' !! parquet_path k
               = Some (ParquetData (canonical_table k c)))
    /\ (forall m k, (n < m)%nat -> sources !! m = Some k ->
          fs' !! parquet_path k = after_copy env fs !! parquet_path k)
    /\ (forall k, k ∈ sources ->
          fs' !! csv_copy_path k = after_copy env fs !! csv_copy_path k).
Proof.
  intros Hpre Hn Hfail Hearlier. rewrite after_copy_eq. unfold_run.
  destruct (proj1 (Hpre "machines" ltac:(src_in))) as [cm Hm].
  destruct (proj1 (Hpre "errors" ltac:(src_in))) as [ce He].
  destruct (proj1 (Hpre "maint" ltac:(src_in))) as [cmt Hmt].
  destruct (proj1 (Hpre "telemetry" ltac:(src_in))) as [ct Ht].
  destruct (proj1 (Hpre "failures" ltac:(src_in))) as [cf Hf].
  rewrite Hm, He, Hmt, Ht, Hf.
  rewrite !(fun k H => proj2 (Hpre k H)) by src_in.
  assert (Hw : forall m k, sources !! m = Some k -> (m < n)%nat ->
            write_fails env (parquet_path k) = false).
  { intros m k Hk Hlt. exact (Hearlier m k Hlt Hk). }
  destruct n as [|[|[|[|[|n]]]]]; simpl in Hn; try discriminate Hn;
    injection Hn as <-;
    rewrite ?(Hw 0%nat "machines" eq_refl) by lia;
    rewrite ?(Hw 1%nat "errors" eq_refl) by lia;
    rewrite ?(Hw 2%nat "maint" eq_refl) by lia;
    rewrite ?(Hw 3%nat "telemetry" eq_refl) by lia;
    rewrite Hfail;
    (eexists; split; [reflexivity|]);
    (split; [apply lookup_partial_alter_eq|]);
    (split; [intros m k Hlt Hk; split_index m Hk;
             eexists; (split; [eassumption|]); lookup_partial |]);
    (split; [intros m k Hlt Hk; split_index m Hk; lookup_partial |]);
    intros k Hk; in_sources Hk; lookup_partial.
Qed.

Import Fixtures.

(** C7, as stated, fails: over an earlier snapshot, a run whose write of
    the maint table fails has already replaced the machines artifact,
    while the failures artifact is still the earlier one. *)
Lemma failed_run_mixes_old_and_new :
  (run env_maint_fails old_fs).2 = inl (WriteError (parquet_path "maint"))
  /\ old_fs !! parquet_path "machines" = Some (prior machines_csv)
  /\ (run env_maint_fails old_fs).1 !! parquet_path "machines"
     = Some (ParquetData (load machines_csv))
  /\ prior machines_csv <> ParquetData (load machines_csv)
  /\ (run env_maint_fails old_fs).1 !! parquet_path "failures"
     = Some (prior failures_csv).
Proof.
  repeat split; try (vm_compute; reflexivity).
  vm_compute. discriminate.
Qed.

(** On the sample: the write of the maint table fails over an earlier
    snapshot. *)
Lemma write_failure_keeps_earlier_writes_witness :
  exists fs',
    run env_maint_fails old_fs
    = (fs', inl (WriteError (parquet_path "maint")))
    /\ fs' !! parquet_path "maint" = None
    /\ fs' !! parquet_path "machines"
       = Some (ParquetData (load machines_csv))
    /\ fs' !! parquet_path "failures" = Some (prior failures_csv).
Proof.
  destruct (write_failure_keeps_earlier_writes env_maint_fails old_fs
              2%nat "maint")
    as (fs' & Hrun & Hres & Hbefore & Hafter & _).
  - intros k Hk. in_sources Hk;
      (split; [eexists; vm_compute; reflexivity | reflexivity]).
  - reflexivity.
  - vm_compute; reflexivity.
  - intros m k Hlt Hk.
    destruct m as [|[|m]]; [| |lia]; injection Hk as <-;
      vm_compute; reflexivity.
  - exists fs'. split; [exact Hrun|]. split; [exact Hres|]. split.
    + destruct (Hbefore 0%nat "machines") as (c & Hc & Hp);
        [lia | reflexivity |].
      injection Hc as <-. exact Hp.
    + rewrite (Hafter 4%nat "failures") by (lia || reflexivity).
      vm_compute; reflexivity.
Defined.

(** Text is stored as it is in the frame a source is written with. *)
Lemma canonical_table_text (key : string) (c : CsvFile) (i j : nat) r x :
  records c !! i = Some r -> r !! j = Some x -> lex x = LText ->
  (j < length (header c))%nat ->
  exists row, rows (canonical_table key c) !! i = Some row
              /\ row !! j = Some (StrV (text x)).
Proof.
  intros Hr Hx Hl Hj.
  destruct (load_text_column c i j r x Hr Hx Hl Hj)
    as (n & row & Hn & Hs & Hrow & Hcell).
  unfold canonical_table. destruct (String.eqb key "telemetry").
  - destruct (impute_lookup (load c) i j row _ _ Hrow Hs Hcell)
      as (r' & Hr' & Hj' & _).
    exists r'. split; [exact Hr'|].
    now rewrite Hj', impute_cell_present.
  - now exists row.
Qed.

Lemma canonical_table_count (key : string) (c : CsvFile) :
  count (canonical_table key c) = length (records c).
Proof.
  unfold canonical_table. destruct (String.eqb key "telemetry").
  - now rewrite impute_count, load_count.
  - apply load_count.
Qed.

(** C4, as stated, fails: the maint file of the sample has a record with
    comp = component5; the run succeeds, raises no [SchemaError], and the
    maint artifact holds that row. *)
Lemma component5_is_persisted :
  (run env_ok ∅).2 = inr tt
  /\ (run env_ok ∅).2 <> inl (SchemaError "comp" "component5")
  /\ (run env_ok ∅).1 !! parquet_path "maint"
     = Some (ParquetData (load maint_csv))
  /\ columns (load maint_csv) !! 2%nat = Some "comp"
  /\ rows (load maint_csv) !! 1%nat
     = Some [TsV 1405490400; IntV 2; StrV "component5"].
Proof.
  repeat split; try (vm_compute; reflexivity).
  vm_compute. discriminate.
Qed.

(** C4, amended: the values of a column are not checked against an
    enumeration.  No run fails with a [SchemaError], whatever the files
    hold; and in a successful run the artifact of every source has one row
    for each record of its file, a textual value being stored in its cell
    as it is, whatever the value. *)
Theorem enumerations_are_not_checked (env : Env) (fs : gmap string File) :
  (forall column v, (run env fs).2 <> inl (SchemaError column v))
  /\ forall fs' key,
       run env fs = (fs', inr tt) -> key ∈ sources ->
       exists c df,
         source_file env key = Some c
         /\ fs' !! parquet_path key = Some (ParquetData df)
         /\ count df = length (records c)
         /\ forall i j r x,
              records c !! i = Some r -> r !! j = Some x -> lex x = LText ->
              (j < length (header c))%nat ->
              exists row, rows df !! i = Some row
                          /\ row !! j = Some (StrV (text x)).
Proof.
  split.
  - intros column v H. apply run_error_kind in H.
    destruct H as [[? H] | [[? H] | [? H]]]; discriminate H.
  - intros fs' key Hrun Hk.
    destruct (run_ok_spec env fs fs' Hrun) as [Hsrc _].
    destruct (Hsrc key Hk) as (c & Hc & Hp & _).
    exists c, (canonical_table key c). split; [exact Hc|].
    split; [exact Hp|]. split; [apply canonical_table_count|].
    intros i j r x. apply canonical_table_text.
Qed.

(** On the sample: the maint table, which holds component5. *)
Lemma enumerations_are_not_checked_witness :
  (forall column v, (run env_ok ∅).2 <> inl (SchemaError column v))
  /\ (run env_ok ∅).2 = inr tt
  /\ exists c df,
       source_file env_ok "maint" = Some c
       /\ (run env_ok ∅).1 !! parquet_path "maint" = Some (ParquetData df)
       /\ count df = length (records c)
       /\ forall i j r x,
            records c !! i = Some r -> r !! j = Some x -> lex x = LText ->
            (j < length (header c))%nat ->
            exists row, rows df !! i = Some row
                        /\ row !! j = Some (StrV (text x)).
Proof.
  destruct (enumerations_are_not_checked env_ok ∅) as [Hno Hok].
  split; [exact Hno|]. split; [vm_compute; reflexivity|].
  apply (Hok (run env_ok ∅).1 "maint");
    [apply run_outcome; vm_compute; reflexivity | src_in].
Defined.

(** C5, as stated, fails: the machines of the sample are 1, 2 and 3 and
    its errors file has a record for machine 99; the run succeeds, raises
    no [ReferentialError], and the errors artifact holds that row. *)
Lemma orphan_machineID_is_persisted :
  map (fun r => r !! 0%nat) (rows (load machines_csv))
  = [Some (IntV 1); Some (IntV 2); Some (IntV 3)]
  /\ (run env_ok ∅).2 = inr tt
  /\ (run env_ok ∅).2 <> inl (ReferentialError "errors" 99)
  /\ (run env_ok ∅).1 !! parquet_path "errors"
     = Some (ParquetData (load errors_csv))
  /\ columns (load errors_csv) !! 1%nat = Some "machineID"
  /\ rows (load errors_csv) !! 1%nat
     = Some [TsV 1420315200; IntV 99; StrV "error3"].
Proof.
  repeat split; try (vm_compute; reflexivity).
  vm_compute. discriminate.
Qed.

(** C5, amended: the machine identifiers of the event tables are not
    checked against the machine table.  No run fails with a
    [ReferentialError], whatever the files hold; and in a successful run the
    artifact of every source is the frame of its own file, with one row for
    each record, whatever the machines file holds. *)
Theorem references_are_not_checked (env : Env) (fs : gmap string File) :
  (forall source id, (run env fs).2 <> inl (ReferentialError source id))
  /\ forall fs' key,
       run env fs = (fs', inr tt) -> key ∈ sources ->
       exists c,
         source_file env key = Some c
         /\ fs' !! parquet_path key
            = Some (ParquetData (canonical_table key c))
         /\ count (canonical_table key c) = length (records c).
Proof.
  split.
  - intros source id H. apply run_error_kind in H.
    destruct H as [[? H] | [[? H] | [? H]]]; discriminate H.
  - intros fs' key Hrun Hk.
    destruct (run_ok_spec env fs fs' Hrun) as [Hsrc _].
    destruct (Hsrc key Hk) as (c & Hc & Hp & _).
    exists c. split; [exact Hc|]. split; [exact Hp|].
    apply canonical_table_count.
Qed.

(** On the sample: the errors table, which refers to machine 99. *)
Lemma references_are_not_checked_witness :
  (forall source id, (run env_ok ∅).2 <> inl (ReferentialError source id))
  /\ (run env_ok ∅).2 = inr tt
  /\ exists c,
       source_file env_ok "errors" = Some c
       /\ (run env_ok ∅).1 !! parquet_path "errors"
          = Some (ParquetData (canonical_table "errors" c))
       /\ count (canonical_table "errors" c) = length (records c).
Proof.
  destruct (references_are_not_checked env_ok ∅) as [Hno Hok].
  split; [exact Hno|]. split; [vm_compute; reflexivity|].
  apply (Hok (run env_ok ∅).1 "errors");
    [apply run_outcome; vm_compute; reflexivity | src_in].
Defined.

(** C8: a successful run over the five sources writes exactly five
    artifacts under the target, at five distinct paths each named after
    its source by [parquet_files_names]; each artifact has as many rows as
    the frame of its source after imputation (which is the number of
    records of the file); and a Parquet artifact found at any other path
    was there before the run. *)
Theorem run_writes_five_artifacts (env : Env) (fs fs' : gmap string File) :
  run env fs = (fs', inr tt) ->
  length (map parquet_path sources) = 5%nat
  /\ NoDup (map parquet_path sources)
  /\ (forall key, key ∈ sources ->
        parquet_path key = target_dir +:+ (parquet_files_names !!! key)
        /\ exists c df,
             source_file env key = Some c
             /\ fs' !! parquet_path key = Some (ParquetData df)
             /\ df = canonical_table key c
             /\ count df = count (canonical_table key c)
             /\ count df = length (records c))
  /\ (forall p df, fs' !! p = Some (ParquetData df) ->
        p ∉ map parquet_path sources -> fs !! p = Some (ParquetData df)).
Proof.
  intros Hrun. destruct (run_ok_spec env fs fs' Hrun) as [Hsrc Hother].
  split; [reflexivity|]. split; [apply parquet_paths_NoDup|]. split.
  - intros key Hk. split; [now apply parquet_path_eq|].
    destruct (Hsrc key Hk) as (c & Hc & Hp & _).
    exists c, (canonical_table key c).
    repeat split; try assumption. apply canonical_table_count.
  - intros p df Hp Hnot.
    destruct (decide (p ∈ map csv_copy_path sources)) as [Hin|Hout].
    + apply list_elem_of_In, in_map_iff in Hin.
      destruct Hin as (key & <- & Hk). apply list_elem_of_In in Hk.
      destruct (Hsrc key Hk) as (c & _ & _ & _ & Hgone).
      rewrite Hgone in Hp. discriminate Hp.
    + rewrite (Hother p Hnot Hout), after_copy_eq in Hp.
      apply lookup_union_Some_raw in Hp as [Hp|[_ Hp]]; [|exact Hp].
      apply (lookup_kmap_Some (String.app target_dir)) in Hp
        as (rel & _ & Hp).
      rewrite lookup_fmap in Hp.
      destruct (storage env !! rel); discriminate Hp.
Qed.

(** On the sample, from an empty target: the telemetry artifact has the
    three rows of its source, and every artifact at the target is one of
    the five. *)
Lemma run_writes_five_artifacts_witness :
  (run env_ok ∅).2 = inr tt
  /\ (run env_ok ∅).1 !! "dbfs:/dataset/telemetry_files.parquet"
     = Some (ParquetData (impute (load telemetry_csv)))
  /\ count (impute (load telemetry_csv)) = 3%nat
  /\ forall p df, (run env_ok ∅).1 !! p = Some (ParquetData df) ->
       p ∈ map parquet_path sources.
Proof.
  split; [vm_compute; reflexivity|].
  destruct (run_writes_five_artifacts env_ok ∅ (run env_ok ∅).1)
    as (_ & _ & Hsrc & Hother);
    [apply run_outcome; vm_compute; reflexivity|].
  destruct (Hsrc "telemetry") as (_ & c & df & Hc & Hp & -> & _ & Hn);
    [src_in|].
  injection Hc as <-. split; [exact Hp|]. split; [exact Hn|].
  intros p df Hp'.
  destruct (decide (p ∈ map parquet_path sources)) as [Hin|Hout];
    [exact Hin|].
  pose proof (Hother p df Hp' Hout) as He.
  rewrite lookup_empty in He. discriminate He.
Defined.

(** C9: the missing-value handling is applied to the telemetry frame
    only.  In a successful run the artifact of machines, errors, maint and
    failures is the frame as it was loaded, no [fillna] applied; the
    telemetry artifact is the imputed frame. *)
Theorem only_telemetry_is_imputed (env : Env) (fs fs' : gmap string File)
    (key : string) :
  run env fs = (fs', inr tt) -> key ∈ sources ->
  exists c,
    source_file env key = Some c
    /\ (key <> "telemetry" ->
        fs' !! parquet_path key = Some (ParquetData (load c)))
    /\ (key = "telemetry" ->
        fs' !! parquet_path key = Some (ParquetData (impute (load c)))).
Proof.
  intros Hrun Hk. destruct (run_ok_spec env fs fs' Hrun) as [Hsrc _].
  destruct (Hsrc key Hk) as (c & Hc & Hp & _).
  exists c. split; [exact Hc|]. unfold canonical_table in Hp. split.
  - intros Hne. apply String.eqb_neq in Hne. now rewrite Hne in Hp.
  - intros ->. exact Hp.
Qed.

(** On the sample: the maint artifact is the loaded frame, its missing
    machine included. *)
Lemma only_telemetry_is_imputed_witness :
  (run env_ok ∅).2 = inr tt
  /\ (run env_ok ∅).1 !! parquet_path "maint"
     = Some (ParquetData (load maint_csv))
  /\ (rows (load maint_csv) !! 2%nat ≫= (.!! 1%nat)) = Some Null.
Proof.
  split; [vm_compute; reflexivity|].
  destruct (only_telemetry_is_imputed env_ok ∅ (run env_ok ∅).1 "maint")
    as (c & Hc & Hload & _);
    [apply run_outcome; vm_compute; reflexivity | src_in |].
  injection Hc as <-. split; [|vm_compute; reflexivity].
  apply Hload. discriminate.
Defined.

(** C10: besides the five artifacts, a run changes the target in two more
    ways.  It begins with the copy: the run is the other cells started on
    the target in which every file below the storage path has been copied
    under the target directory.  The copies of the five CSV files are
    removed only once the writes have succeeded: a run that fails leaves
    them where the copy put them, and a successful run ends with the five
    artifacts at the target and without those copies. *)
Theorem run_copies_then_removes_csv (env : Env) (fs : gmap string File) :
  run env fs = cells_after_copy env (after_copy env fs)
  /\ (forall rel c, storage env !! rel = Some c ->
        after_copy env fs !! (target_dir +:+ rel) = Some (CsvData c))
  /\ (forall fs' e key c,
        run env fs = (fs', inl e) -> key ∈ sources ->
        source_file env key = Some c ->
        fs' !! csv_copy_path key = Some (CsvData c))
  /\ (forall fs' key,
        run env fs = (fs', inr tt) -> key ∈ sources ->
        exists c,
          source_file env key = Some c
          /\ csv_copy_path key = target_dir +:+ (csv_files_names !!! key)
          /\ after_copy env fs !! csv_copy_path key = Some (CsvData c)
          /\ fs' !! csv_copy_path key = None
          /\ fs' !! parquet_path key
             = Some (ParquetData (canonical_table key c))).
Proof.
  split; [apply run_after_copy|].
  split; [intros rel c; apply after_copy_lookup|]. split.
  - intros fs' e key c Hrun Hk Hc.
    destruct (run_failure env fs fs' e Hrun)
      as [[-> _] | (k & _ & _ & _ & _ & Hcopies)].
    + now apply after_copy_csv.
    + rewrite (Hcopies key Hk). now apply after_copy_csv.
  - intros fs' key Hrun Hk.
    destruct (run_ok_spec env fs fs' Hrun) as [Hsrc _].
    destruct (Hsrc key Hk) as (c & Hc & Hp & Hcopy & Hgone).
    exists c. repeat split; try assumption. now apply csv_copy_path_eq.
Qed.

(** On the sample: the copy of machines.csv is there after the first cell
    and gone at the end of the run, where the machines artifact is; it is
    still there at the end of the run whose maint write fails. *)
Lemma run_copies_then_removes_csv_witness :
  (run env_ok ∅).2 = inr tt
  /\ after_copy env_ok ∅ !! "dbfs:/dataset/machines.csv"
     = Some (CsvData machines_csv)
  /\ (run env_ok ∅).1 !! "dbfs:/dataset/machines.csv" = None
  /\ (run env_ok ∅).1 !! "dbfs:/dataset/machines_files.parquet"
     = Some (ParquetData (load machines_csv))
  /\ (run env_maint_fails old_fs).1 !! "dbfs:/dataset/machines.csv"
     = Some (CsvData machines_csv).
Proof.
  split; [vm_compute; reflexivity|].
  destruct (run_copies_then_removes_csv env_ok ∅) as (_ & _ & _ & Hok).
  destruct (run_copies_then_removes_csv env_maint_fails old_fs)
    as (_ & _ & Hfail & _).
  destruct (Hok (run env_ok ∅).1 "machines")
    as (c & Hc & _ & Hcopy & Hgone & Hp);
    [apply run_outcome; vm_compute; reflexivity | src_in |].
  injection Hc as <-.
  split; [exact Hcopy|]. split; [exact Hgone|]. split; [exact Hp|].
  apply (Hfail (run env_maint_fails old_fs).1
           (WriteError (parquet_path "maint")) "machines" machines_csv);
    [apply run_outcome; vm_compute; reflexivity | src_in
     | vm_compute; reflexivity].
Defined.

Import MoreFixtures.

(** *** Further facts about a run *)

Lemma run_ok_oracles (env : Env) (fs fs' : gmap string File)
    (key : string) :
  run env fs = (fs', inr tt) -> key ∈ sources ->
  cell_raises env key = false /\ write_fails env (parquet_path key) = false.
Proof.
  intros Hrun Hk.
  destruct (run_ok_inv env fs fs' Hrun) as (? & ? & ? & ? & ? & H).
  now apply H.
Qed.

(** X1: the loads come before the writes.  When one of the five sources is
    not in the blob store, the run fails before any write is attempted,
    whatever the writes would do: it ends with an error that is not the
    error of a write, and it leaves the target exactly as the copy of the
    first cell made it. *)
Theorem missing_source_stops_before_writes (env : Env)
    (fs : gmap string File) (key : string) :
  key ∈ sources -> source_file env key = None ->
  exists e,
    run env fs = (after_copy env fs, inl e)
    /\ forall path, e <> WriteError path.
Proof.
  intros Hk Hnone.
  destruct (run env fs) as [fs' [e|[]]] eqn:Hrun.
  - destruct (run_failure env fs fs' e Hrun)
      as [[-> [(k & _ & -> & _) | (k & _ & -> & _)]]
         | (k & _ & _ & _ & Hall & _)].
    + eexists. split; [reflexivity | discriminate].
    + eexists. split; [reflexivity | discriminate].
    + destruct (Hall key Hk) as [c Hc]. congruence.
  - destruct (run_ok_spec env fs fs' Hrun) as [Hsrc _].
    destruct (Hsrc key Hk) as (c & Hc & _). congruence.
Qed.

(** On the sample without its errors file, over an earlier snapshot and
    with writes that would fail: the run ends with the error of the errors
    load and the earlier machines artifact is still there. *)
Lemma missing_source_stops_before_writes_witness :
  (run env_no_errors old_fs).2
  = inl (SourceUnavailableError (csv_path "errors"))
  /\ (run env_no_errors old_fs).1 !! parquet_path "machines"
     = Some (prior machines_csv).
Proof.
  destruct (missing_source_stops_before_writes env_no_errors old_fs
              "errors") as (e & Hrun & _);
    [src_in | vm_compute; reflexivity |].
  split; [vm_compute; reflexivity|].
  rewrite Hrun. vm_compute; reflexivity.
Defined.


(** X3: running the notebook again after a successful run, with the same
    blob store and writes that succeed again, succeeds and leaves the target
    exactly as the first run left it. *)
Theorem rerun_gives_same_target (env : Env) (fs fs' : gmap string File) :
  run env fs = (fs', inr tt) -> run env fs' = (fs', inr tt).
Proof.
  intros Hrun.
  destruct (run_succeeds env fs') as [fs'' Hrun'].
  { intros key Hk. destruct (run_ok_spec env fs fs' Hrun) as [Hsrc _].
    destruct (Hsrc key Hk) as (c & Hc & _). now exists c. }
  { intros key Hk. now apply (run_ok_oracles env fs fs'). }
  { intros key Hk. now apply (run_ok_oracles env fs fs'). }
  rewrite Hrun'. f_equal. apply map_eq. intros p.
  destruct (run_ok_spec env fs fs' Hrun) as [Hsrc Hother].
  destruct (run_ok_spec env fs' fs'' Hrun') as [Hsrc' Hother'].
  destruct (decide (p ∈ map parquet_path sources)) as [Hin|Hout].
  { apply list_elem_of_In, in_map_iff in Hin.
    destruct Hin as (key & <- & Hk). apply list_elem_of_In in Hk.
    destruct (Hsrc key Hk) as (c & Hc & Hp & _).
    destruct (Hsrc' key Hk) as (c' & Hc' & Hp' & _).
    rewrite Hp, Hp'. congruence. }
  destruct (decide (p ∈ map csv_copy_path sources)) as [Hin|Hout'].
  { apply list_elem_of_In, in_map_iff in Hin.
    destruct Hin as (key & <- & Hk). apply list_elem_of_In in Hk.
    destruct (Hsrc key Hk) as (c & _ & _ & _ & Hg).
    destruct (Hsrc' key Hk) as (c' & _ & _ & _ & Hg').
    now rewrite Hg, Hg'. }
  rewrite (Hother' p Hout Hout'), after_copy_eq, lookup_union.
  pose proof (Hother p Hout Hout') as Hp.
  rewrite after_copy_eq, lookup_union in Hp. rewrite Hp.
  now destruct (kmap _ _ !! p), (fs !! p).
Qed.

Lemma rerun_gives_same_target_witness :
  (run env_ok ∅).2 = inr tt
  /\ (run env_ok (run env_ok ∅).1).2 = inr tt
  /\ (run env_ok (run env_ok ∅).1).1 = (run env_ok ∅).1.
Proof.
  assert (H : run env_ok (run env_ok ∅).1 = ((run env_ok ∅).1, inr tt)).
  { apply (rerun_gives_same_target env_ok ∅).
    apply run_outcome. vm_compute; reflexivity. }
  rewrite H. split; [vm_compute; reflexivity|]. split; reflexivity.
Defined.

(** X4: the removal of the target directory is commented out in the first
    cell, and the run removes nothing but the five copies.  In a successful
    run a file of the target that is not at the path of an artifact, of a
    CSV copy or of a copied blob is after the run what it was before. *)
Theorem run_keeps_other_files (env : Env) (fs fs' : gmap string File)
    (p : string) :
  run env fs = (fs', inr tt) ->
  p ∉ map parquet_path sources -> p ∉ map csv_copy_path sources ->
  (forall rel, p = target_dir +:+ rel -> storage env !! rel = None) ->
  fs' !! p = fs !! p.
Proof.
  intros Hrun Hp Hc Hrel.
  destruct (run_ok_spec env fs fs' Hrun) as [_ Hother].
  rewrite (Hother p Hp Hc), after_copy_eq. apply lookup_union_r.
  apply (lookup_kmap_None (String.app target_dir)).
  intros rel ->. rewrite lookup_fmap, (Hrel rel eq_refl). reflexivity.
Qed.

Lemma run_keeps_other_files_witness :
  (run env_ok fs_with_report).2 = inr tt
  /\ (run env_ok fs_with_report).1 !! "dbfs:/dataset/report_2014.parquet"
     = Some (prior machines_csv).
Proof.
  split; [vm_compute; reflexivity|].
  rewrite (run_keeps_other_files env_ok fs_with_report
             (run env_ok fs_with_report).1
             "dbfs:/dataset/report_2014.parquet").
  - vm_compute; reflexivity.
  - apply run_outcome. vm_compute; reflexivity.
  - compute_done.
  - compute_done.
  - intros rel Hrel. vm_compute in Hrel.
    injection Hrel as <-. vm_compute; reflexivity.
Defined.

(** X5: the copy of the first cell takes every blob below the storage path,
    the loop at the end removes the five CSV copies only.  After a
    successful run the copy of any other blob is still at the target. *)
Theorem run_leaves_other_copies (env : Env) (fs fs' : gmap string File)
    (rel : string) (c : CsvFile) :
  run env fs = (fs', inr tt) -> storage env !! rel = Some c ->
  target_dir +:+ rel ∉ map parquet_path sources ->
  target_dir +:+ rel ∉ map csv_copy_path sources ->
  fs' !! (target_dir +:+ rel) = Some (CsvData c).
Proof.
  intros Hrun Hc Hp Hcsv.
  destruct (run_ok_spec env fs fs' Hrun) as [_ Hother].
  rewrite (Hother _ Hp Hcsv). now apply after_copy_lookup.
Qed.

Lemma run_leaves_other_copies_witness :
  (run env_notes ∅).2 = inr tt
  /\ (run env_notes ∅).1 !! "dbfs:/dataset/notes.csv"
     = Some (CsvData notes_csv).
Proof.
  split; [vm_compute; reflexivity|].
  apply (run_leaves_other_copies env_notes ∅ (run env_notes ∅).1
           "notes.csv" notes_csv).
  - apply run_outcome. vm_compute; reflexivity.
  - vm_compute; reflexivity.
  - compute_done.
  - compute_done.
Defined.

(** The loop of removals, as a fold. *)
Lemma rm_loop_fold (items : list (string * string)) (fs : gmap string File) :
  for_each items (fun '(key, val) => dbutils_fs_rm (csv_copy_path key)) fs
  = (fold_left (fun m kv => delete (csv_copy_path kv.1) m) items fs, inr tt).
Proof.
  revert fs. induction items as [|[key val] items IH]; intros fs;
    [reflexivity|].
  simpl. cbv [mbind M_bind dbutils_fs_rm modify]. apply IH.
Qed.

(** X6: the order in which the loop over [csv_files_names] meets the keys
    of the dictionary does not matter: in any order, the removals leave the
    same target. *)
Theorem rm_loop_order_irrelevant (items : list (string * string))
    (fs : gmap string File) :
  items ≡ₚ map_to_list csv_files_names ->
  for_each items (fun '(key, val) => dbutils_fs_rm (csv_copy_path key)) fs
  = for_each (map_to_list csv_files_names)
      (fun '(key, val) => dbutils_fs_rm (csv_copy_path key)) fs.
Proof.
  intros Hperm. rewrite !rm_loop_fold. f_equal.
  revert fs. induction Hperm as [|x l l' _ IH|x y l|l l' l'' _ IH1 _ IH2];
    intros fs; simpl.
  - reflexivity.
  - apply IH.
  - now rewrite delete_delete.
  - now rewrite IH1.
Qed.

Lemma rm_loop_order_irrelevant_witness :
  (for_each
     [("failures", "failures.csv"); ("telemetry", "telemetry.csv");
      ("maint", "maint.csv"); ("errors", "errors.csv");
      ("machines", "machines.csv")]
     (fun '(key, val) => dbutils_fs_rm (csv_copy_path key))
     (after_copy env_ok ∅))
  = for_each (map_to_list csv_files_names)
      (fun '(key, val) => dbutils_fs_rm (csv_copy_path key))
      (after_copy env_ok ∅).
Proof.
  apply rm_loop_order_irrelevant. rewrite csv_items.
  apply NoDup_Permutation.
  - compute_done.
  - compute_done.
  - intros x. rewrite !elem_of_cons, !elem_of_nil. tauto.
Defined.

End Run.

(** ** The missing-value handling: what it guarantees *)

Section Imputation.
Import Spark Dbfs Notebook Fixtures MoreFixtures.

(** The cell of row [i] and column [j] of an imputed frame comes from the
    cell at the same place of the frame before. *)
Lemma impute_lookup_inv (df : DataFrame) (i j : nat) r (f : StructField) x :
  rows (impute df) !! i = Some r -> schema df !! j = Some f ->
  r !! j = Some x ->
  exists r0 x0, rows df !! i = Some r0 /\ r0 !! j = Some x0
                /\ x = impute_cell (columns df) f x0.
Proof.
  rewrite impute_rows; simpl. change (map ?g ?l) with (g <$> l).
  rewrite list_lookup_fmap. intros Hr Hf Hx.
  destruct (rows df !! i) as [r0|]; [|discriminate Hr].
  injection Hr as <-. rewrite lookup_zip_with, Hf in Hx. simpl in Hx.
  destruct (r0 !! j) as [x0|] eqn:Hx0; [|discriminate Hx].
  injection Hx as <-. now exists r0, x0.
Qed.

(** The string fill of [machineID] does nothing to an integer column: the
    third telemetry reading of the sample keeps its null machine. *)
Lemma fillna_unknown_skips_integer_machineID :
  schema (impute (load telemetry_csv)) !! 1%nat
  = Some {| name := "machineID"; dataType := IntegerType |}
  /\ (rows (impute (load telemetry_csv)) !! 2%nat ≫= (.!! 1%nat))
     = Some Null.
Proof. split; vm_compute; reflexivity. Qed.

(** The numeric fill does nothing to a string column: in the telemetry file
    whose voltage column holds text, the reading without voltage keeps its
    null. *)
Lemma fillna_zero_skips_string_voltage :
  schema (impute (load telemetry_text_csv)) !! 2%nat
  = Some {| name := "voltage"; dataType := StringType |}
  /\ (rows (impute (load telemetry_text_csv)) !! 1%nat ≫= (.!! 2%nat))
     = Some Null.
Proof. split; vm_compute; reflexivity. Qed.

(** C1, as stated, fails: the maint table is never imputed, and the third
    maintenance record of the sample, which has no machine, is stored by a
    successful run with its [machineID] still null. *)
Lemma maint_machineID_stays_missing :
  (run env_ok ∅).2 = inr tt
  /\ (run env_ok ∅).1 !! parquet_path "maint"
     = Some (ParquetData (load maint_csv))
  /\ columns (load maint_csv) !! 1%nat = Some "machineID"
  /\ (rows (load maint_csv) !! 2%nat ≫= (.!! 1%nat)) = Some Null
  /\ missing Null = true.
Proof. repeat split; vm_compute; reflexivity. Qed.

(** C1, amended: after the imputation of the telemetry cell, in every row
    of the telemetry frame a column other than [datetime] and [machineID]
    that was loaded with a numeric type holds no missing value (neither
    null nor NaN). *)
Theorem impute_fills_numeric_telemetry (c : CsvFile) (i j : nat) r
    (f : StructField) x :
  rows (impute (load c)) !! i = Some r ->
  schema (impute (load c)) !! j = Some f ->
  r !! j = Some x ->
  name f <> "datetime" -> name f <> "machineID" ->
  isNumeric (dataType f) = true ->
  missing x = false.
Proof.
  intros Hr Hf Hx Hd Hm Hnum. rewrite impute_schema in Hf.
  destruct (impute_lookup_inv _ _ _ _ _ _ Hr Hf Hx)
    as (r0 & x0 & Hr0 & Hx0 & ->).
  apply impute_cell_numeric; try assumption.
  - now apply (schema_name_in _ j).
  - now apply (load_has_type c i j r0).
Qed.

(** On the sample: the second telemetry reading, loaded without voltage, has
    voltage 0 after the imputation. *)
Lemma impute_fills_numeric_telemetry_witness :
  rows (impute (load telemetry_csv)) !! 1%nat
  = Some [TsV 1420095600; IntV 1; DoubleV (Num 0);
          DoubleV (Num (4027 # 10)); DoubleV (Num (955 # 10));
          DoubleV (Num (434 # 10))]
  /\ missing (DoubleV (Num 0)) = false.
Proof.
  split; [vm_compute; reflexivity|].
  apply (impute_fills_numeric_telemetry telemetry_csv 1%nat 2%nat
           [TsV 1420095600; IntV 1; DoubleV (Num 0);
            DoubleV (Num (4027 # 10)); DoubleV (Num (955 # 10));
            DoubleV (Num (434 # 10))]
           {| name := "voltage"; dataType := DoubleType |}
           (DoubleV (Num 0)));
    try (vm_compute; reflexivity); vm_compute; discriminate.
Defined.

(** C2: the imputation is idempotent, [impute (impute T) = impute T] for
    every frame [T]. *)
Theorem impute_idempotent (df : DataFrame) : impute (impute df) = impute df.
Proof.
  rewrite (impute_rows (impute df)), impute_schema.
  unfold columns. rewrite impute_schema. fold (columns df).
  rewrite (impute_rows df) at 1. simpl.
  rewrite (impute_rows df). f_equal.
  rewrite map_map. apply map_ext. intros r.
  apply zip_with_fix. intros f x. apply impute_cell_fix.
Qed.

(** C3, as stated, fails: in the telemetry file whose only reading has no
    voltage, the voltage column is loaded as a string column, the numeric
    fill leaves it out, and the voltage of the reading is still missing, not
    0, after the imputation. *)
Lemma missing_voltage_stays_missing :
  schema (load telemetry_unread_csv) !! 2%nat
  = Some {| name := "voltage"; dataType := StringType |}
  /\ (rows (load telemetry_unread_csv) !! 0%nat ≫= (.!! 2%nat)) = Some Null
  /\ (rows (impute (load telemetry_unread_csv)) !! 0%nat ≫= (.!! 2%nat))
     = Some Null
  /\ missing Null = true
  /\ is_zero Null = false.
Proof. repeat split; vm_compute; reflexivity. Qed.

(** C3, amended: the imputation changes only missing cells.  A cell that is
    not missing has the same value afterwards; and in a row whose [voltage]
    is missing, when the voltage column has a numeric type and the cell is
    of that type (as every cell of a loaded frame is), the voltage is 0
    afterwards and every other cell of the row that was not missing is as
    before. *)
Theorem impute_changes_only_missing (df : DataFrame) (i j : nat) r
    (f : StructField) x :
  rows df !! i = Some r -> schema df !! j = Some f -> r !! j = Some x ->
  exists r', rows (impute df) !! i = Some r'
    /\ (missing x = false -> r' !! j = Some x)
    /\ (name f = "voltage" -> isNumeric (dataType f) = true ->
        has_type (dataType f) x = true -> missing x = true ->
        (exists y, r' !! j = Some y /\ is_zero y = true)
        /\ forall k fk w, k <> j -> schema df !! k = Some fk ->
             r !! k = Some w -> missing w = false -> r' !! k = Some w).
Proof.
  intros Hr Hf Hx.
  destruct (impute_lookup df i j r f x Hr Hf Hx) as (r' & Hr' & Hj & Hall).
  exists r'. split; [exact Hr'|]. split.
  - intros Hp. now rewrite Hj, impute_cell_present.
  - intros Hn Hnum Hty Hmiss. split.
    + exists (impute_cell (columns df) f x). split; [exact Hj|].
      apply impute_cell_numeric; try assumption.
      * now apply (schema_name_in _ j).
      * rewrite Hn. discriminate.
      * rewrite Hn. discriminate.
    + intros k fk w _ Hk Hw Hp.
      now rewrite (Hall k fk w Hk Hw), impute_cell_present.
Qed.

(** On the sample: in the second telemetry reading the voltage becomes 0,
    the machine and the rotation stay as they were. *)
Lemma impute_changes_only_missing_witness :
  exists r',
    rows (impute (load telemetry_csv)) !! 1%nat = Some r'
    /\ (exists y, r' !! 2%nat = Some y /\ is_zero y = true)
    /\ r' !! 1%nat = Some (IntV 1)
    /\ r' !! 3%nat = Some (DoubleV (Num (4027 # 10))).
Proof.
  destruct (impute_changes_only_missing (load telemetry_csv) 1%nat 2%nat
              [TsV 1420095600; IntV 1; Null; DoubleV (Num (4027 # 10));
               DoubleV (Num (955 # 10)); DoubleV (Num (434 # 10))]
              {| name := "voltage"; dataType := DoubleType |} Null)
    as (r' & Hr' & _ & Hv); [vm_compute; reflexivity ..|].
  destruct Hv as [Hy Hrest]; [reflexivity ..|].
  exists r'. split; [exact Hr'|]. split; [exact Hy|]. split.
  - apply (Hrest 1%nat {| name := "machineID"; dataType := IntegerType |});
      [lia | vm_compute; reflexivity ..].
  - apply (Hrest 3%nat {| name := "rotation"; dataType := DoubleType |});
      [lia | vm_compute; reflexivity ..].
Defined.

End Imputation.

(** ** Loading: types are inferred, never checked *)

Section Loading.
Import Spark Dbfs Notebook Fixtures.

(** C6, as stated, fails: the telemetry file whose [voltage] column holds
    the text abc is loaded without error, and the column is a string
    column. *)
Lemma text_in_voltage_loads_as_string :
  spark_read_csv env_text (csv_path "telemetry") ∅
  = (∅, inr (load telemetry_text_csv))
  /\ schema (load telemetry_text_csv) !! 2%nat
     = Some {| name := "voltage"; dataType := StringType |}
  /\ (rows (load telemetry_text_csv) !! 0%nat ≫= (.!! 2%nat))
     = Some (StrV "abc").
Proof. repeat split; vm_compute; reflexivity. Qed.

(** C6, amended: column types are inferred from the content and are not
    checked against a declared schema.  Loading a file that is in the blob
    store succeeds whatever the file holds; and a column in which some
    record holds text that is no number, timestamp or boolean is loaded as
    a string column, the text being kept in its cell. *)
Theorem load_infers_string_for_text (env : Env) (path : string)
    (c : CsvFile) (fs : gmap string File) :
  wasb_open env path = Some c ->
  spark_read_csv env path fs = (fs, inr (load c))
  /\ forall i j r x,
       records c !! i = Some r -> r !! j = Some x -> lex x = LText ->
       (j < length (header c))%nat ->
       exists f row,
         schema (load c) !! j = Some f
         /\ dataType f = StringType
         /\ rows (load c) !! i = Some row
         /\ row !! j = Some (StrV (text x)).
Proof.
  intros Ho. split.
  - unfold spark_read_csv. now rewrite Ho.
  - intros i j r x Hr Hx Hl Hj.
    destruct (load_text_column c i j r x Hr Hx Hl Hj)
      as (n & row & _ & Hs & Hrow & Hcell).
    now exists {| name := n; dataType := StringType |}, row.
Qed.

(** On the sample: the telemetry file with abc in its voltage column. *)
Lemma load_infers_string_for_text_witness :
  spark_read_csv env_text (csv_path "telemetry") ∅
  = (∅, inr (load telemetry_text_csv))
  /\ exists f row,
       schema (load telemetry_text_csv) !! 2%nat = Some f
       /\ dataType f = StringType
       /\ rows (load telemetry_text_csv) !! 0%nat = Some row
       /\ row !! 2%nat = Some (StrV "abc").
Proof.
  destruct (load_infers_string_for_text env_text (csv_path "telemetry")
              telemetry_text_csv ∅) as [Hload Htext];
    [vm_compute; reflexivity|].
  split; [exact Hload|].
  apply (Htext 0%nat 2%nat
           [time "2015-01-01 06:00:00" 1420092000; int "1" 1; txt "abc";
            real "418.5" (4185 # 10); real "113.1" (1131 # 10);
            real "45.1" (451 # 10)]
           (txt "abc"));
    [vm_compute; reflexivity .. | vm_compute; lia].
Defined.

End Loading.

(** ** Further facts about the reader and the missing-value handling *)

Section MoreReader.
Import Spark Notebook Exploration Fixtures MoreFixtures.

Lemma rootTypes_length (recs : list (list field)) (ts : list DataType) :
  length (fold_left inferRowType recs ts) = length ts.
Proof.
  revert ts. induction recs as [|r recs IH]; intros ts; simpl;
    [reflexivity|].
  now rewrite IH, inferRowType_length.
Qed.

Lemma infer_names (names : list string) (ts : list DataType) :
  length ts = length names ->
  map name (zip_with (fun n t => {| name := n; dataType := canonical t |})
                     names ts) = names.
Proof.
  revert ts. induction names as [|n names IH]; intros [|t ts] H;
    simpl in *; try reflexivity; try discriminate H.
  f_equal. apply IH. now injection H.
Qed.

Lemma convert_length (s : list StructField) (r : list field) :
  length (convert s r) = length s.
Proof.
  revert r. induction s as [|f s IH]; intros r; [reflexivity|].
  destruct r; simpl; now rewrite IH.
Qed.

Lemma load_columns (c : CsvFile) : columns (load c) = header c.
Proof.
  unfold columns, load, infer; simpl. apply infer_names.
  now rewrite rootTypes_length, length_replicate.
Qed.

Lemma load_schema_length (c : CsvFile) :
  length (schema (load c)) = length (header c).
Proof.
  transitivity (length (columns (load c))).
  - unfold columns. symmetry. apply length_map.
  - now rewrite load_columns.
Qed.

Lemma load_row (c : CsvFile) (i : nat) :
  rows (load c) !! i = convert (schema (load c)) <$> records c !! i.
Proof.
  unfold load; simpl. change (map ?g ?l) with (g <$> l).
  apply list_lookup_fmap.
Qed.

(** X7: a loaded frame has the shape of its file.  It has as many columns
    as the header has names and one row for each record, and every row has
    one cell for each column: a record with fewer fields than the header is
    filled up with nulls, the fields of a record beyond the header are
    dropped. *)
Theorem load_shape (c : CsvFile) :
  length (columns (load c)) = length (header c)
  /\ count (load c) = length (records c)
  /\ (forall i row, rows (load c) !! i = Some row ->
        length row = length (header c))
  /\ (forall i rec row j,
        records c !! i = Some rec -> rows (load c) !! i = Some row ->
        (length rec <= j < length (header c))%nat -> row !! j = Some Null).
Proof.
  split; [now rewrite load_columns|]. split; [apply load_count|]. split.
  - intros i row. rewrite load_row.
    destruct (records c !! i); [|discriminate].
    intros Hrow. apply (inj Some) in Hrow. subst row.
    rewrite convert_length. apply load_schema_length.
  - intros i rec row j Hrec. rewrite load_row, Hrec.
    intros Hrow [Hge Hlt]. apply (inj Some) in Hrow. subst row.
    rewrite <- load_schema_length in Hlt.
    destruct (lookup_lt_is_Some_2 _ _ Hlt) as [f Hf].
    rewrite (convert_lookup _ _ _ _ Hf).
    now rewrite (proj2 (lookup_ge_None rec j) Hge).
Qed.

Lemma load_shape_witness :
  length (columns (load ragged_csv)) = 3%nat
  /\ rows (load ragged_csv) !! 1%nat = Some [IntV 4; Null; Null]
  /\ [IntV 4; Null; Null] !! 2%nat = Some Null
  /\ rows (load ragged_csv) !! 2%nat = Some [Null; IntV 6; Null].
Proof.
  destruct (load_shape ragged_csv) as (Hc & _ & _ & Hpad).
  split; [exact Hc|]. split; [vm_compute; reflexivity|].
  split; [|vm_compute; reflexivity].
  apply (Hpad 1%nat [int "4" 4] [IntV 4; Null; Null] 2%nat);
    [vm_compute; reflexivity .. | vm_compute; lia].
Defined.

(** The type of a column after all records, when the type stays within a
    set [P] of types on the fields the column holds. *)
Lemma rootTypes_invariant (P : DataType -> Prop) (ok : field -> Prop)
    (recs : list (list field)) (j : nat) :
  (forall t x, P t -> ok x -> P (inferField t x)) ->
  (forall i r x, recs !! i = Some r -> r !! j = Some x -> ok x) ->
  forall ts t, ts !! j = Some t -> P t ->
    exists t', fold_left inferRowType recs ts !! j = Some t' /\ P t'.
Proof.
  intros Hstep. induction recs as [|r recs IH]; intros Hok ts t Ht HP; simpl.
  - now exists t.
  - apply (IH (fun i => Hok (S i)) _
              (match r !! j with Some x => inferField t x | None => t end)).
    + now rewrite inferRowType_lookup, Ht.
    + destruct (r !! j) as [x|] eqn:Hx; [|exact HP].
      apply Hstep; [exact HP|]. exact (Hok 0%nat r x eq_refl Hx).
Qed.

Lemma inferField_int_or_blank (t : DataType) (x : field) :
  t = NullType \/ t = IntegerType -> int_or_blank x ->
  inferField t x = NullType \/ inferField t x = IntegerType.
Proof.
  unfold inferField, tryParseInteger.
  intros [-> | ->] [-> | (z & -> & ->)]; auto.
Qed.

Lemma inferField_integer_stays (t : DataType) (x : field) :
  t = IntegerType -> int_or_blank x -> inferField t x = IntegerType.
Proof.
  unfold inferField, tryParseInteger.
  intros -> [-> | (z & -> & ->)]; reflexivity.
Qed.

Lemma schema_lookup (c : CsvFile) (j : nat) (n : string) (t : DataType) :
  header c !! j = Some n ->
  fold_left inferRowType (records c)
    (replicate (length (header c)) NullType) !! j = Some t ->
  schema (load c) !! j = Some {| name := n; dataType := canonical t |}.
Proof.
  intros Hn Ht. unfold load, infer; simpl.
  now rewrite lookup_zip_with, Hn, Ht.
Qed.

Lemma load_cell (c : CsvFile) (i j : nat) rec (f : StructField) :
  records c !! i = Some rec -> schema (load c) !! j = Some f ->
  (rows (load c) !! i ≫= (.!! j))
  = Some (match rec !! j with
          | Some x => castTo (dataType f) x
          | None => Null
          end).
Proof.
  intros Hrec Hf. rewrite load_row, Hrec. simpl.
  now apply convert_lookup.
Qed.

(** X8: a column in which no record holds anything (in particular every
    column of a file that has a header and no record) is loaded as a string
    column, and all its cells are null. *)
Theorem load_blank_column (c : CsvFile) (j : nat) (n : string) :
  header c !! j = Some n ->
  (forall i r x, records c !! i = Some r -> r !! j = Some x ->
     lex x = LEmpty) ->
  schema (load c) !! j = Some {| name := n; dataType := StringType |}
  /\ forall i, (i < length (records c))%nat ->
       (rows (load c) !! i ≫= (.!! j)) = Some Null.
Proof.
  intros Hn Hblank.
  destruct (rootTypes_invariant (fun t => t = NullType) blank (records c) j)
    with (ts := replicate (length (header c)) NullType) (t := NullType)
    as (t' & Ht' & ->).
  - intros t x -> Hx. unfold inferField. now rewrite Hx.
  - exact Hblank.
  - apply lookup_replicate_2. now apply (lookup_lt_Some _ _ n).
  - reflexivity.
  - pose proof (schema_lookup c j n NullType Hn Ht') as Hs. simpl in Hs.
    split; [exact Hs|]. intros i Hi.
    destruct (lookup_lt_is_Some_2 _ _ Hi) as [rec Hrec].
    rewrite (load_cell c i j rec _ Hrec Hs).
    destruct (rec !! j) as [x|] eqn:Hx; [|reflexivity].
    unfold castTo. now rewrite (Hblank i rec x Hrec Hx).
Qed.

Lemma load_blank_column_witness :
  schema (load ragged_csv) !! 2%nat
  = Some {| name := "c"; dataType := StringType |}
  /\ forall i, (i < 3)%nat ->
       (rows (load ragged_csv) !! i ≫= (.!! 2%nat)) = Some Null.
Proof.
  apply (load_blank_column ragged_csv 2%nat "c"); [reflexivity|].
  intros i r x Hr Hx.
  destruct i as [|[|[|i]]]; simpl in Hr; try discriminate Hr;
    injection Hr as <-; simpl in Hx; try discriminate Hx;
    injection Hx as <-; reflexivity.
Defined.

(** X9: a column whose fields are integer literals in the 32-bit range, or
    empty, with at least one literal, is loaded as an integer column; the
    cell of a literal is that integer, the cell of an empty or absent field
    is null. *)
Theorem load_integer_column (c : CsvFile) (j : nat) (n : string)
    (i0 : nat) r0 x0 (z0 : Z) :
  header c !! j = Some n ->
  (forall i r x, records c !! i = Some r -> r !! j = Some x ->
     lex x = LEmpty \/ exists z, lex x = LInteger z /\ in_int z = true) ->
  records c !! i0 = Some r0 -> r0 !! j = Some x0 -> lex x0 = LInteger z0 ->
  schema (load c) !! j = Some {| name := n; dataType := IntegerType |}
  /\ forall i r, records c !! i = Some r ->
       (rows (load c) !! i ≫= (.!! j))
       = Some (match r !! j with
               | Some {| lex := LInteger z |} => IntV z
               | _ => Null
               end).
Proof.
  intros Hn Hok Hr0 Hx0 Hl0.
  assert (Hj : (j < length (header c))%nat) by now apply (lookup_lt_Some _ _ n).
  pose proof (take_drop_middle _ _ _ Hr0) as Hsplit.
  assert (Hok1 : forall i r x, take i0 (records c) !! i = Some r ->
            r !! j = Some x -> int_or_blank x).
  { intros i r x Hr. apply (Hok i).
    apply lookup_take_Some in Hr. tauto. }
  assert (Hok2 : forall i r x, drop (S i0) (records c) !! i = Some r ->
            r !! j = Some x -> int_or_blank x).
  { intros i r x Hr. apply (Hok (S i0 + i)%nat). now rewrite <- lookup_drop. }
  destruct (rootTypes_invariant
              (fun t => t = NullType \/ t = IntegerType) int_or_blank
              (take i0 (records c)) j inferField_int_or_blank Hok1
              (replicate (length (header c)) NullType) NullType)
    as (t1 & Ht1 & Ht1P);
    [now apply lookup_replicate_2 | now left |].
  assert (Hx0ok : int_or_blank x0) by exact (Hok i0 r0 x0 Hr0 Hx0).
  destruct (rootTypes_invariant
              (fun t => t = IntegerType) int_or_blank
              (drop (S i0) (records c)) j inferField_integer_stays Hok2
              (inferRowType
                 (fold_left inferRowType (take i0 (records c))
                    (replicate (length (header c)) NullType)) r0)
              IntegerType)
    as (t2 & Ht2 & ->).
  { rewrite inferRowType_lookup, Ht1, Hx0. f_equal.
    unfold inferField, tryParseInteger. rewrite Hl0.
    destruct Hx0ok as [He | (z & Hz & Hin)]; [congruence|].
    assert (z = z0) as -> by congruence. rewrite Hin.
    now destruct Ht1P as [-> | ->]. }
  { reflexivity. }
  assert (Ht : fold_left inferRowType (records c)
                 (replicate (length (header c)) NullType) !! j
               = Some IntegerType).
  { rewrite <- Hsplit at 1. now rewrite fold_left_app. }
  pose proof (schema_lookup c j n IntegerType Hn Ht) as Hs. simpl in Hs.
  split; [exact Hs|]. intros i r Hr.
  rewrite (load_cell c i j r _ Hr Hs). simpl. f_equal.
  destruct (r !! j) as [x|] eqn:Hx; [|reflexivity].
  unfold castTo.
  destruct (Hok i r x Hr Hx) as [He | (z & Hz & Hin)];
    destruct x as [s l]; simpl in *; subst l; [reflexivity|].
  now rewrite Hin.
Qed.

(** On the sample: the machineID column of the telemetry file, whose third
    record has no machine. *)
Lemma load_integer_column_witness :
  schema (load telemetry_csv) !! 1%nat
  = Some {| name := "machineID"; dataType := IntegerType |}
  /\ (rows (load telemetry_csv) !! 0%nat ≫= (.!! 1%nat)) = Some (IntV 1)
  /\ (rows (load telemetry_csv) !! 2%nat ≫= (.!! 1%nat)) = Some Null.
Proof.
  destruct (load_integer_column telemetry_csv 1%nat "machineID" 0%nat
              [time "2015-01-01 06:00:00" 1420092000; int "1" 1;
               real "176.2" (1762 # 10); real "418.5" (4185 # 10);
               real "113.1" (1131 # 10); int "45" 45]
              (int "1" 1) 1) as [Hs Hcells]; try reflexivity.
  { intros i r x Hr Hx.
    destruct i as [|[|[|i]]]; simpl in Hr; try discriminate Hr;
      injection Hr as <-; injection Hx as <-;
      [right; exists 1 | right; exists 1 | left]; easy. }
  split; [exact Hs|]. split.
  - now rewrite (Hcells 0%nat _ eq_refl).
  - now rewrite (Hcells 2%nat _ eq_refl).
Defined.

End MoreReader.

(** ** The counts behind the bar plots *)

Section Counts.
Import Spark Notebook Exploration Fixtures MoreFixtures.

Lemma tally_total (k : value) (acc : list (value * nat)) :
  total (tally k acc) = S (total acc).
Proof.
  induction acc as [|[k' n] acc IH]; [reflexivity|].
  simpl. destruct (value_eqb k' k); simpl; [reflexivity|].
  rewrite IH. lia.
Qed.

Lemma groups_total (j : nat) (rs : list (list value)) acc :
  total (fold_left (fun acc r => tally (key j r) acc) rs acc)
  = (length rs + total acc)%nat.
Proof.
  revert acc. induction rs as [|r rs IH]; intros acc; [reflexivity|].
  simpl. rewrite IH, tally_total. lia.
Qed.

Lemma value_eqb_refl (k : value) : value_eqb k k = true.
Proof.
  destruct k as [| | | |[|q]| |[|]|s]; simpl; try reflexivity;
    try apply Z.eqb_refl; try apply String.eqb_refl;
    apply Qeq_bool_iff; reflexivity.
Qed.

Lemma value_eqb_null (k : value) : value_eqb Null k = true -> k = Null.
Proof. now destruct k. Qed.

(** The keys of the groups: those that were there, then possibly [k]. *)
Lemma tally_keys (k : value) (acc : list (value * nat)) :
  (exists k', k' ∈ acc.*1 /\ value_eqb k' k = true
              /\ (tally k acc).*1 = acc.*1)
  \/ ((forall k', k' ∈ acc.*1 -> value_eqb k' k = false)
      /\ (tally k acc).*1 = acc.*1 ++ [k]).
Proof.
  induction acc as [|[k' n] acc IH].
  - right. split; [|reflexivity]. intros k' H. now apply elem_of_nil in H.
  - cbn [tally]. destruct (value_eqb k' k) eqn:E; rewrite !fmap_cons;
      cbn [fst].
    + left. exists k'. split; [apply elem_of_cons; now left|]. now split.
    + destruct IH as [(k'' & Hin & He & Hk) | (Hnone & Hk)].
      * left. exists k''. split; [apply elem_of_cons; now right|].
        split; [exact He|]. now rewrite Hk.
      * right. split; [|now rewrite Hk].
        intros k'' Hin. apply elem_of_cons in Hin as [-> | Hin];
          [exact E | now apply Hnone].
Qed.

Lemma distinct_snoc (keys : list value) (k : value) :
  distinct keys -> (forall k', k' ∈ keys -> value_eqb k' k = false) ->
  distinct (keys ++ [k]).
Proof.
  intros Hd Hk i j k1 k2 Hlt H1 H2.
  destruct (decide (j < length keys)%nat) as [Hj|Hj].
  - rewrite lookup_app_l in H1 by lia. rewrite lookup_app_l in H2 by lia.
    now apply (Hd i j).
  - assert (Hlen : (j < length (keys ++ [k]))%nat)
      by now apply (lookup_lt_Some _ _ k2).
    rewrite length_app in Hlen. simpl in Hlen.
    assert (j = length keys) as -> by lia.
    rewrite lookup_app_l in H1 by lia.
    rewrite lookup_app_r in H2 by lia.
    rewrite Nat.sub_diag in H2. injection H2 as <-.
    apply Hk. apply list_elem_of_lookup. now exists i.
Qed.

(** What the fold keeps: the keys are distinct, each is the key of a row
    (or was there before), and every row met has its key among them. *)
Lemma groups_keys (j : nat) (rs : list (list value)) acc :
  distinct acc.*1 ->
  let groups := fold_left (fun acc r => tally (key j r) acc) rs acc in
  distinct groups.*1
  /\ (forall k, k ∈ groups.*1 -> k ∈ acc.*1 \/ exists r, r ∈ rs /\ k = key j r)
  /\ (forall k, k ∈ acc.*1 -> k ∈ groups.*1)
  /\ (forall r, r ∈ rs ->
        exists k, k ∈ groups.*1 /\ value_eqb k (key j r) = true).
Proof.
  revert acc. induction rs as [|r rs IH]; intros acc Hd; simpl.
  - split; [exact Hd|]. split; [now left|]. split; [easy|].
    intros r H. now apply elem_of_nil in H.
  - assert (Hstep : distinct (tally (key j r) acc).*1
              /\ (forall k, k ∈ (tally (key j r) acc).*1 ->
                    k ∈ acc.*1 \/ k = key j r)
              /\ (forall k, k ∈ acc.*1 -> k ∈ (tally (key j r) acc).*1)
              /\ exists k, k ∈ (tally (key j r) acc).*1
                           /\ value_eqb k (key j r) = true).
    { destruct (tally_keys (key j r) acc)
        as [(k' & Hin & He & ->) | (Hnone & ->)].
      - split; [exact Hd|]. split; [now left|]. split; [easy|].
        now exists k'.
      - split; [now apply distinct_snoc|]. split.
        + intros k Hk. apply elem_of_app in Hk as [Hk|Hk]; [now left|].
          right. now apply list_elem_of_singleton in Hk.
        + split; [intros k Hk; apply elem_of_app; now left|].
          exists (key j r). split; [|apply value_eqb_refl].
          apply elem_of_app. right. now apply list_elem_of_singleton. }
    destruct Hstep as (Hd' & Hfrom & Hkeep & k0 & Hk0 & He0).
    destruct (IH _ Hd') as (Hdist & Hsrc & Hmono & Hall).
    split; [exact Hdist|]. split; [|split].
    + intros k Hk. destruct (Hsrc k Hk) as [Hk'|(r' & Hr' & ->)].
      * destruct (Hfrom k Hk') as [?| ->]; [now left|].
        right. exists r. split; [apply elem_of_cons; now left | reflexivity].
      * right. exists r'. split; [apply elem_of_cons; now right|reflexivity].
    + intros k Hk. now apply Hmono, Hkeep.
    + intros r' Hr'. apply elem_of_cons in Hr' as [-> | Hr'].
      * exists k0. split; [now apply Hmono | exact He0].
      * now apply Hall.
Qed.

Lemma distinct_nil : distinct [].
Proof. intros i j k1 k2 _ H. discriminate H. Qed.

Lemma total_from_python (groups : list (value * nat)) :
  total (map (fun kv => (from_python kv.1, kv.2)) groups) = total groups
  /\ (map (fun kv => (from_python kv.1, kv.2)) groups).*2 = groups.*2.
Proof.
  induction groups as [|[k n] groups [IH1 IH2]]; [now split|].
  cbn [map]. split.
  - cbn [total fold_right snd]. fold (total groups).
    fold (total (map (fun kv : value * nat => (from_python kv.1, kv.2))
                     groups)).
    now rewrite IH1.
  - rewrite !fmap_cons. cbn [snd]. now rewrite IH2.
Qed.

(** X10: the groups that [df.groupBy(col).count().collect()] gives divide
    the rows of the frame: their counts add up to the number of rows, no
    two groups have the same key, and the key of every row is the key of a
    group; rows with no value in the column form a group of their own.  The
    frame that [createDataFrame] builds from the groups, where it builds
    one, has the same counts. *)
Theorem groups_partition_rows (col : string) (df : DataFrame)
    (groups : list (value * nat)) :
  groupBy_count col df = Some groups ->
  total groups = count df
  /\ distinct groups.*1
  /\ (exists j, resolve col (schema df) = Some j
        /\ forall r, r ∈ rows df ->
             exists k, k ∈ groups.*1 /\ value_eqb k (key j r) = true)
  /\ (forall counts, count_by col df = Some counts ->
        total counts = count df /\ counts.*2 = groups.*2).
Proof.
  unfold count_by. intros Hg. rewrite Hg. unfold groupBy_count in Hg.
  destruct (resolve col (schema df)) as [j|]; [|discriminate].
  injection Hg as <-.
  set (data := fold_left _ (rows df) []).
  destruct (groups_keys j (rows df) [] distinct_nil)
    as (Hd & _ & _ & Hall).
  assert (Htotal : total data = count df).
  { unfold data. rewrite groups_total. unfold count. simpl. lia. }
  split; [exact Htotal|]. split; [exact Hd|]. split.
  - exists j. split; [reflexivity | exact Hall].
  - intros counts Hcreate. unfold createDataFrame in Hcreate.
    destruct data as [|g data'] eqn:Hdata; [discriminate|].
    destruct (forallb _ (g :: data')); [discriminate|].
    destruct (total_from_python (g :: data')) as [H1 H2].
    apply (inj Some) in Hcreate. subst counts.
    split; [rewrite H1; exact Htotal | exact H2].
Qed.

(** On the sample: two rows with error1, one with error3, one without
    error. *)
Lemma groups_partition_rows_witness :
  groupBy_count "errorID" (load errors_log_csv)
  = Some [(StrV "error1", 2%nat); (StrV "error3", 1%nat); (Null, 1%nat)]
  /\ total [(StrV "error1", 2%nat); (StrV "error3", 1%nat); (Null, 1%nat)]
     = count (load errors_log_csv)
  /\ count_by "machineID" (load errors_log_csv)
     = Some [(LongV 1, 1%nat); (LongV 2, 2%nat); (LongV 3, 1%nat)].
Proof.
  split; [vm_compute; reflexivity|]. split; [|vm_compute; reflexivity].
  apply (groups_partition_rows "errorID" (load errors_log_csv)).
  vm_compute; reflexivity.
Defined.

(** X11: the counting fails exactly when the name does not refer to one
    column of the frame, or when no row of the frame has a value in that
    column; in particular it fails on a frame without rows. *)
Theorem count_by_fails_iff (col : string) (df : DataFrame) :
  count_by col df = None
  <-> resolve col (schema df) = None
      \/ exists j, resolve col (schema df) = Some j
           /\ forall r, r ∈ rows df -> key j r = Null.
Proof.
  unfold count_by, groupBy_count.
  destruct (resolve col (schema df)) as [j|]; [|split; [now left|easy]].
  set (data := fold_left _ (rows df) []).
  destruct (groups_keys j (rows df) [] distinct_nil)
    as (_ & Hsrc & _ & Hall).
  fold data in Hsrc, Hall. split.
  - intros Hnone. right. exists j. split; [reflexivity|].
    intros r Hr. destruct (Hall r Hr) as (k & Hk & He).
    unfold createDataFrame in Hnone.
    destruct data as [|g data'] eqn:Hdata;
      [now apply elem_of_nil in Hk|].
    destruct (forallb _ (g :: data')) eqn:Hnull; [|discriminate Hnone].
    rewrite forallb_forall in Hnull.
    apply list_elem_of_fmap in Hk as ([k' n] & -> & Hin).
    apply list_elem_of_In in Hin. specialize (Hnull _ Hin). simpl in *.
    destruct k'; try discriminate Hnull. now apply value_eqb_null.
  - intros [Hres | (j' & Hres & Hnull)]; [discriminate Hres|].
    injection Hres as <-. unfold createDataFrame.
    destruct data as [|g data'] eqn:Hdata; [reflexivity|].
    assert (Hall_null : forallb (fun kv : value * nat => is_null kv.1)
                          (g :: data') = true).
    { apply forallb_forall. intros [k n] Hin. simpl.
      destruct (Hsrc k) as [Hk | (r & Hr & ->)].
      - apply list_elem_of_fmap. exists (k, n).
        split; [reflexivity | now apply list_elem_of_In].
      - now apply elem_of_nil in Hk.
      - now rewrite (Hnull r Hr). }
    now rewrite Hall_null.
Qed.

(** On the sample: an errors file without records, and a column that is
    not there. *)
Lemma count_by_fails_iff_witness :
  count_by "errorID" (load errors_none_csv) = None
  /\ count_by "comp" (load errors_log_csv) = None.
Proof.
  split.
  - apply (proj2 (count_by_fails_iff "errorID" (load errors_none_csv))).
    right. exists 2%nat. split; [vm_compute; reflexivity|].
    intros r Hr. now apply elem_of_nil in Hr.
  - apply (proj2 (count_by_fails_iff "comp" (load errors_log_csv))).
    left. vm_compute; reflexivity.
Defined.

End Counts.

(** ** Further facts about the missing-value handling and the paths *)

Section MoreImputation.
Import Spark Dbfs Notebook Fixtures MoreFixtures.

(** The numeric columns of the telemetry cell: the names of the frame other
    than [datetime] and [machineID], compared as Python compares strings. *)
Lemma features_numeric_resolves_only (cols : list string) (n : string) :
  n ∈ features_numeric cols
  <-> n ∈ cols /\ n <> "datetime" /\ n <> "machineID".
Proof.
  unfold features_numeric, features_datetime, features_categorical.
  rewrite elem_of_elements, !elem_of_difference, !elem_of_list_to_set,
    !list_elem_of_singleton.
  tauto.
Qed.

(** X12: the two fills reach numeric and string columns only.  A column of
    any other type (a timestamp or a boolean column) is the same after the
    imputation, its missing cells included. *)
Theorem impute_skips_other_types (df : DataFrame) (i j : nat) r
    (f : StructField) x :
  rows df !! i = Some r -> schema df !! j = Some f -> r !! j = Some x ->
  isNumeric (dataType f) = false -> dataType f <> StringType ->
  exists r', rows (impute df) !! i = Some r' /\ r' !! j = Some x.
Proof.
  intros Hr Hf Hx Hnum Hstr.
  destruct (impute_lookup df i j r f x Hr Hf Hx) as (r' & Hr' & Hj & _).
  exists r'. split; [exact Hr'|]. rewrite Hj. f_equal.
  unfold impute_cell, projection, typeMatches. rewrite Hnum.
  destruct (dataType f); try reflexivity. contradiction.
Qed.

(** On the sample: the reading without datetime still has none. *)
Lemma impute_skips_other_types_witness :
  exists r',
    rows (impute (load telemetry_gap_csv)) !! 1%nat = Some r'
    /\ r' !! 0%nat = Some Null.
Proof.
  apply (impute_skips_other_types (load telemetry_gap_csv) 1%nat 0%nat
           [Null; IntV 1; DoubleV (Num (1628 # 10))]
           {| name := "datetime"; dataType := TimestampType |} Null);
    try (vm_compute; reflexivity).
  vm_compute. discriminate.
Defined.

(** X13: when the machine column is a string column, a reading without
    machine gets the machine Unknown. *)
Theorem impute_string_machineID (df : DataFrame) (i j : nat) r
    (f : StructField) :
  rows df !! i = Some r -> schema df !! j = Some f -> r !! j = Some Null ->
  columnEquals (name f) "machineID" = true -> dataType f = StringType ->
  exists r', rows (impute df) !! i = Some r'
             /\ r' !! j = Some (StrV "Unknown").
Proof.
  intros Hr Hf Hx Hname Hty.
  destruct (impute_lookup df i j r f Null Hr Hf Hx) as (r' & Hr' & Hj & _).
  exists r'. split; [exact Hr'|]. rewrite Hj. f_equal.
  unfold impute_cell, projection, typeMatches, features_categorical.
  rewrite Hty. simpl. rewrite Hname. simpl.
  unfold fillCol. now rewrite Hty.
Qed.

(** On the sample: the file whose machines are named by text. *)
Lemma impute_string_machineID_witness :
  exists r',
    rows (impute (load telemetry_tagged_csv)) !! 1%nat = Some r'
    /\ r' !! 1%nat = Some (StrV "Unknown").
Proof.
  apply (impute_string_machineID (load telemetry_tagged_csv) 1%nat 1%nat
           [TsV 1420095600; Null; DoubleV (Num (1628 # 10))]
           {| name := "machineID"; dataType := StringType |});
    vm_compute; reflexivity.
Defined.

(** X14: when the column [machineID] is not a string column, and no other
    column has its name up to case, the imputation leaves the column as it
    is: the numeric fill leaves it out by its name, the string fill by its
    type.  A reading without machine stays without machine. *)
Theorem impute_skips_typed_machineID (df : DataFrame) (i j : nat) r
    (f : StructField) x :
  rows df !! i = Some r -> schema df !! j = Some f -> r !! j = Some x ->
  name f = "machineID" -> dataType f <> StringType ->
  (forall n, n ∈ columns df -> columnEquals "machineID" n = true ->
     n = "machineID") ->
  exists r', rows (impute df) !! i = Some r' /\ r' !! j = Some x.
Proof.
  intros Hr Hf Hx Hname Hty Huniq.
  destruct (impute_lookup df i j r f x Hr Hf Hx) as (r' & Hr' & Hj & _).
  exists r'. split; [exact Hr'|]. rewrite Hj. f_equal.
  unfold impute_cell, projection at 2.
  assert (Hout : existsb (columnEquals (name f))
                   (features_numeric (columns df)) = false).
  { apply not_true_is_false. intros Hex.
    apply existsb_exists in Hex as (n & Hin & He).
    apply list_elem_of_In in Hin.
    apply (proj1 (features_numeric_resolves_only (columns df) n)) in Hin.
    destruct Hin as (Hin & _ & Hne). rewrite Hname in He.
    now apply Hne, Huniq. }
  rewrite Hout, andb_false_r.
  unfold projection, typeMatches.
  destruct (dataType f); try reflexivity. contradiction.
Qed.

(** On the sample: the third telemetry reading, which has no machine. *)
Lemma impute_skips_typed_machineID_witness :
  exists r',
    rows (impute (load telemetry_csv)) !! 2%nat = Some r'
    /\ r' !! 1%nat = Some Null.
Proof.
  apply (impute_skips_typed_machineID (load telemetry_csv) 2%nat 1%nat
           [TsV 1420099200; Null; DoubleV (Num (1709 # 10));
            DoubleV (Num (5273 # 10)); DoubleV (Num (752 # 10));
            DoubleV (Num (341 # 10))]
           {| name := "machineID"; dataType := IntegerType |} Null);
    try (vm_compute; reflexivity).
  - vm_compute. discriminate.
  - intros n Hn. rewrite load_columns in Hn.
    unfold telemetry_csv in Hn; simpl in Hn.
    repeat (apply elem_of_cons in Hn as [-> | Hn]);
      try (vm_compute; discriminate); try reflexivity.
    now apply elem_of_nil in Hn.
Defined.

Lemma strip_prefix_app (p s : string) : strip_prefix p (p +:+ s) = Some s.
Proof.
  induction p as [|a p IH]; [reflexivity|].
  simpl. now rewrite Ascii.eqb_refl.
Qed.

(** X15: the path a load cell builds with [os.path.join] from the storage
    path and a file name is the path of the blob of that name, for any name
    that does not begin with a slash; a name that begins with a slash
    replaces the storage path altogether, and the load finds nothing. *)
Theorem join_then_open (env : Env) (file : string) :
  (startswith_sep file = false ->
   os_path_join storage_path file = storage_path +:+ file
   /\ wasb_open env (os_path_join storage_path file) = storage env !! file)
  /\ (startswith_sep file = true ->
      os_path_join storage_path file = file
      /\ wasb_open env (os_path_join storage_path file) = None).
Proof.
  assert (Hrel : startswith_sep file = false ->
                 os_path_join storage_path file = storage_path +:+ file).
  { intros H. unfold os_path_join. rewrite H. reflexivity. }
  assert (Habs : startswith_sep file = true ->
                 os_path_join storage_path file = file).
  { intros H. unfold os_path_join. now rewrite H. }
  split; intros H.
  - split; [now apply Hrel|]. rewrite (Hrel H). unfold wasb_open.
    now rewrite strip_prefix_app.
  - split; [now apply Habs|]. rewrite (Habs H). unfold wasb_open.
    destruct file as [|c file]; [discriminate H|]. simpl in H.
    apply Ascii.eqb_eq in H. subst c. reflexivity.
Qed.

Lemma join_then_open_witness :
  wasb_open env_ok (os_path_join storage_path "maint.csv") = Some maint_csv
  /\ wasb_open env_ok (os_path_join storage_path "/maint.csv") = None.
Proof.
  destruct (join_then_open env_ok "maint.csv") as [Hrel _].
  destruct (join_then_open env_ok "/maint.csv") as [_ Habs].
  split.
  - rewrite (proj2 (Hrel eq_refl)). vm_compute; reflexivity.
  - exact (proj2 (Habs eq_refl)).
Defined.

End MoreImputation.

(** ** The frames that are written are well typed *)

Section Typing.
Import Spark Dbfs Notebook Fixtures MoreFixtures.

Lemma impute_cell_has_type cols (f : StructField) (x : value) :
  has_type (dataType f) x = true ->
  has_type (dataType f) (impute_cell cols f x) = true.
Proof.
  unfold impute_cell, projection, fillCol, colValue, replacement,
    typeMatches.
  destruct f as [n dt]; simpl.
  destruct (existsb (columnEquals n) (features_numeric cols)),
    (columnEquals n "machineID"), dt, x as [| | | |[|q]| | |];
    simpl; intros H; try discriminate H; reflexivity.
Qed.

(** X16: every cell of a frame that is written is null or of the type of
    its column: the reader produces such frames, and each fill puts into a
    column a value cast to the type of the column. *)
Theorem canonical_table_well_typed (key : string) (c : CsvFile)
    (i j : nat) r (f : StructField) x :
  rows (canonical_table key c) !! i = Some r ->
  schema (canonical_table key c) !! j = Some f ->
  r !! j = Some x ->
  has_type (dataType f) x = true.
Proof.
  unfold canonical_table. destruct (String.eqb key "telemetry").
  - intros Hr Hf Hx. rewrite impute_schema in Hf.
    destruct (impute_lookup_inv _ _ _ _ _ _ Hr Hf Hx)
      as (r0 & x0 & Hr0 & Hx0 & ->).
    apply impute_cell_has_type. now apply (load_has_type c i j r0).
  - apply load_has_type.
Qed.

(** On the sample: the voltage filled in the second telemetry reading is a
    double. *)
Lemma canonical_table_well_typed_witness :
  (rows (canonical_table "telemetry" telemetry_csv) !! 1%nat ≫= (.!! 2%nat))
  = Some (DoubleV (Num 0))
  /\ has_type DoubleType (DoubleV (Num 0)) = true.
Proof.
  split; [vm_compute; reflexivity|].
  apply (canonical_table_well_typed "telemetry" telemetry_csv 1%nat 2%nat
           [TsV 1420095600; IntV 1; DoubleV (Num 0);
            DoubleV (Num (4027 # 10)); DoubleV (Num (955 # 10));
            DoubleV (Num (434 # 10))]
           {| name := "voltage"; dataType := DoubleType |});
    vm_compute; reflexivity.
Defined.

End Typing.
